(** * svelte-simple-modal: the modal host of [src/Modal.svelte]

    A shallow embedding of the script part of [Modal.svelte]: the exported
    [bind] helper, the host's variables, the control API handed to
    descendants ([openModal], [closeModal], [isLoading],
    [changeModalContent]), the scroll lock ([disableScroll],
    [enableScroll]) and the three event handlers ([handleKeydown],
    [handleOuterMousedown], [handleOuterMouseup]).

    JavaScript values are an inductive type, objects used as records are
    finite maps from property names, the host's [let] variables are the
    fields of a record that every operation takes and returns, and the part
    of the page the script touches (inline style of the body, the window's
    scroll offsets, the descendants of the dialog window, the focused
    element and the elements that cannot take the focus) is a second
    record.  A handler that may throw returns in an
    error monad. *)

From Stdlib Require Import ZArith Lia Ascii String.
From stdpp Require Import base option list strings gmap pretty.

Open Scope Z_scope.

(** ** JavaScript values *)

(** A primitive stored in a style or transition-parameter record
    ([Record<string, string | number>] in the source's JSDoc). *)
Inductive prim :=
  | PStr (s : string)
  | PNum (z : Z).

(** The values a configuration key, a prop or the loading flag can hold.
    Functions and components are opaque references, told apart by an
    identifier.  [VRec] is an object literal whose keys are not array
    indices, so that [Object.keys] lists them in insertion order. *)
Inductive value :=
  | VUndef
  | VNull
  | VBool (b : bool)
  | VNum (z : Z)
  | VStr (s : string)
  | VFun (f : nat)
  | VRec (r : list (string * prim)).

(** [!!v], the condition of an [if], the left operand of [||] and [&&]. *)
Definition truthy (v : value) : bool :=
  match v with
  | VUndef | VNull => false
  | VBool b => b
  | VNum z => negb (z =? 0)
  | VStr s => negb (String.eqb s "")
  | VFun _ | VRec _ => true
  end.

(** An object used as a record of named properties. *)
Abbreviation obj := (gmap string value).

(** [o.k]: a missing property reads as [undefined]. *)
Definition get (o : obj) (k : string) : value := default VUndef (o !! k).

(** [{ ...a, ...b }]: every own property of [a], then every own property of
    [b], the later one winning on a shared key. *)
Definition spread2 (a b : obj) : obj := b ∪ a.

(** [...x] where [x] may be [undefined] or [null]: nothing is copied. *)
Definition spread_opt (x : option obj) : obj := default ∅ x.

(** ** The exported [bind] helper (module script, lines 6-16) *)

(** A Svelte component constructor, an opaque reference. *)
Definition component := nat.

(** The options object given to a component constructor: its [props]
    property ([None] when absent) and its other properties. *)
Record options := Options {
  opt_props : option obj;
  opt_rest : obj;
}.

(** [new Component(opts)]: which constructor ran, on which options. *)
Record instantiation := New {
  new_Component : component;
  new_options : options;
}.

(** The closure [ModalComponent] returned by [bind]: the two variables it
    captured. *)
Record ModalComponent := Closure {
  bound_Component : component;
  bound_props : obj;
}.

(** [bind(Component, props = {})]; [None] is an omitted argument. *)
Definition bind (C : component) (props : option obj) : ModalComponent :=
  Closure C (default ∅ props).

(** Calling the closure: [new Component({ ...options, props: { ...props,
    ...options.props } })]. *)
Definition call (m : ModalComponent) (o : options) : instantiation :=
  New (bound_Component m)
      (Options (Some (spread2 (bound_props m) (spread_opt (opt_props o))))
               (opt_rest o)).

(** ** StyleResolver (lines 220-229) *)

Definition is_upper (c : ascii) : bool :=
  let n := nat_of_ascii c in (65 <=? n)%nat && (n <=? 90)%nat.

Definition is_lower (c : ascii) : bool :=
  let n := nat_of_ascii c in (97 <=? n)%nat && (n <=? 122)%nat.

Definition is_letter (c : ascii) : bool := is_upper c || is_lower c.

(** [str.replace(/([a-zA-Z])(?=[A-Z])/g, '$1-')]: a dash after every letter
    that stands right before an upper-case letter. *)
Fixpoint insert_dashes (str : string) : string :=
  match str with
  | EmptyString => EmptyString
  | String c rest =>
      String c
        match rest with
        | EmptyString => EmptyString
        | String d _ =>
            if is_letter c && is_upper d
            then String "-" (insert_dashes rest)
            else insert_dashes rest
        end
  end.

(** [toLowerCase] on ASCII names, where it changes the letters A-Z and
    nothing else.  Bytes above 127 are left as they are, which is not what
    the method does to a cased character outside ASCII: what is proved of
    such names is proved of the names that are ASCII. *)
Fixpoint toLowerCase (str : string) : string :=
  match str with
  | EmptyString => EmptyString
  | String c rest =>
      String (if is_upper c then ascii_of_nat (nat_of_ascii c + 32) else c)
             (toLowerCase rest)
  end.

Definition camelCaseToDash (str : string) : string :=
  toLowerCase (insert_dashes str).

(** The template-literal conversion [`${p}`]. *)
Definition prim_to_string (p : prim) : string :=
  match p with
  | PStr s => s
  | PNum z => pretty z
  end.

(** The own enumerable properties of a string: its characters under their
    indices. *)
Fixpoint chars_from (i : nat) (s : string) : list (string * prim) :=
  match s with
  | EmptyString => []
  | String c rest => (pretty i, PStr (String c EmptyString)) :: chars_from (S i) rest
  end.

(** The own enumerable properties [Object.keys] and [Object.assign] see. *)
Definition own_props (v : value) : list (string * prim) :=
  match v with
  | VRec r => r
  | VStr s => chars_from 0 s
  | _ => []
  end.

(** [props ? Object.keys(props).reduce(...) : ''] *)
Definition toCssString (props : value) : string :=
  if truthy props
  then foldl (λ str kv, str +:+ "; " +:+ camelCaseToDash kv.1 +:+ ": "
                            +:+ prim_to_string kv.2)
             "" (own_props props)
  else "".

(** One assignment [target[k] = v]: an existing key keeps its place. *)
Fixpoint assign1 (target : list (string * prim)) (k : string) (v : prim)
  : list (string * prim) :=
  match target with
  | [] => [(k, v)]
  | (k', v') :: rest =>
      if String.eqb k' k then (k', v) :: rest else (k', v') :: assign1 rest k v
  end.

(** [Object.assign({}, { width, height }, styleBg)].  The characters of a
    string source get index keys, which an object lists first. *)
Definition bg_style (width height : Z) (styleBg : value) : value :=
  let base := [("width", PNum width); ("height", PNum height)] in
  VRec match styleBg with
       | VStr s => chars_from 0 s ++ base
       | _ => foldl (λ t kv, assign1 t kv.1 kv.2) base (own_props styleBg)
       end.

(** ** The page and the host's variables *)

(** A DOM element, by identity. *)
Definition node := nat.

(** An element below the dialog window with its [tabIndex]. *)
Record element := Element {
  el_node : node;
  tabIndex : Z;
}.

(** [document.body.style]: the four inline properties the script writes. *)
Record body_style := BodyStyle {
  style_position : string;
  style_top : string;
  style_overflow : string;
  style_width : string;
}.

(** What the script reads and writes outside its own variables.
    [dialog_nodes] is [modalWindow.querySelectorAll('*')], in document
    order.  [unfocusable] lists the elements on which [focus()] has no
    effect, such as a disabled or a hidden control: their [tabIndex] may
    well be 0. *)
Record page := Page {
  body : body_style;
  win_scrollX : Z;
  win_scrollY : Z;
  innerWidth : Z;
  innerHeight : Z;
  dialog_nodes : list element;
  activeElement : node;
  unfocusable : list node;
}.

(** The element references filled in by [bind:this]. *)
Record refs := Refs {
  background : option node;
  wrap : option node;
  modalWindow : option node;
}.

(** [scrollY] and the three [prevBody...] variables; [None] is
    [undefined], their value before the first lock. *)
Record saved := Saved {
  scrollY : option Z;
  prevBodyPosition : option string;
  prevBodyOverflow : option string;
  prevBodyWidth : option string;
}.

(** The variables [updateStyleTransition] assigns. *)
Record styling := Styling {
  cssBg : option string;
  cssWindowWrap : option string;
  cssWindow : option string;
  cssContent : option string;
  cssCloseButton : option string;
  currentTransitionBg : value;
  currentTransitionWindow : value;
}.

(** A lifecycle handler: the initial [toVoid], a closure built by
    [openModal] (the caller's callback and the events it dispatches), or a
    function installed by [closeModal]. *)
Inductive hook :=
  | toVoid
  | notifying (callback : value) (events : list string)
  | supplied (f : value).

Record hooks := Hooks {
  onOpen : hook;
  onClose : hook;
  onOpened : hook;
  onClosed : hook;
}.

Record host := Host {
  defaultState : obj;
  state : obj;
  Component : option ModalComponent;
  elements : refs;
  lock : saved;
  css : styling;
  handlers : hooks;
  outerClickTarget : option node;
  loading : value;
}.

(** The host together with the page it lives in. *)
Definition world := (host * page)%type.

Definition set_state (v : obj) (h : host) : host :=
  Host (defaultState h) v (Component h) (elements h) (lock h) (css h)
       (handlers h) (outerClickTarget h) (loading h).
Definition set_Component (v : option ModalComponent) (h : host) : host :=
  Host (defaultState h) (state h) v (elements h) (lock h) (css h)
       (handlers h) (outerClickTarget h) (loading h).
Definition set_elements (v : refs) (h : host) : host :=
  Host (defaultState h) (state h) (Component h) v (lock h) (css h)
       (handlers h) (outerClickTarget h) (loading h).
Definition set_lock (v : saved) (h : host) : host :=
  Host (defaultState h) (state h) (Component h) (elements h) v (css h)
       (handlers h) (outerClickTarget h) (loading h).
Definition set_css (v : styling) (h : host) : host :=
  Host (defaultState h) (state h) (Component h) (elements h) (lock h) v
       (handlers h) (outerClickTarget h) (loading h).
Definition set_handlers (v : hooks) (h : host) : host :=
  Host (defaultState h) (state h) (Component h) (elements h) (lock h) (css h)
       v (outerClickTarget h) (loading h).
Definition set_outerClickTarget (v : option node) (h : host) : host :=
  Host (defaultState h) (state h) (Component h) (elements h) (lock h) (css h)
       (handlers h) v (loading h).
Definition set_loading (v : value) (h : host) : host :=
  Host (defaultState h) (state h) (Component h) (elements h) (lock h) (css h)
       (handlers h) (outerClickTarget h) v.

Definition set_body (v : body_style) (p : page) : page :=
  Page v (win_scrollX p) (win_scrollY p) (innerWidth p) (innerHeight p)
       (dialog_nodes p) (activeElement p) (unfocusable p).
Definition set_activeElement (v : node) (p : page) : page :=
  Page (body p) (win_scrollX p) (win_scrollY p) (innerWidth p) (innerHeight p)
       (dialog_nodes p) v (unfocusable p).

(** [window.scrollTo(x, y)]; a [y] that is [undefined] counts as 0. *)
Definition scrollTo (x : Z) (y : option Z) (p : page) : page :=
  Page (body p) x (default 0 y) (innerWidth p) (innerHeight p)
       (dialog_nodes p) (activeElement p) (unfocusable p).

(** ** The script of the host (lines 233-381) *)

(** [updateStyleTransition] *)
Definition updateStyleTransition (w : world) : world :=
  let '(h, p) := w in
  (set_css
     (Styling
        (Some (toCssString (bg_style (innerWidth p) (innerHeight p)
                                     (get (state h) "styleBg"))))
        (Some (toCssString (get (state h) "styleWindowWrap")))
        (Some (toCssString (get (state h) "styleWindow")))
        (Some (toCssString (get (state h) "styleContent")))
        (Some (toCssString (get (state h) "styleCloseButton")))
        (get (state h) "transitionBg")
        (get (state h) "transitionWindow"))
     h, p).

(** [disableScroll]: the scroll lock is engaged. *)
Definition disableScroll (w : world) : world :=
  let '(h, p) := w in
  let y := win_scrollY p in
  (set_lock
     (Saved (Some y)
            (Some (style_position (body p)))
            (Some (style_overflow (body p)))
            (Some (style_width (body p))))
     h,
   set_body (BodyStyle "fixed" ("-" +:+ pretty y +:+ "px") "hidden" "100%") p).

(** [prev || '']: [undefined] and the empty string both give [''']. *)
Definition or_empty (prev : option string) : string :=
  match prev with
  | Some s => if String.eqb s "" then "" else s
  | None => ""
  end.

(** [enableScroll]: the scroll lock is disengaged. *)
Definition enableScroll (w : world) : world :=
  let '(h, p) := w in
  (h,
   scrollTo 0 (scrollY (lock h))
     (set_body
        (BodyStyle (or_empty (prevBodyPosition (lock h)))
                   ""
                   (or_empty (prevBodyOverflow (lock h)))
                   (or_empty (prevBodyWidth (lock h))))
        p)).

(** [changeModalContent(NewComponent, newProps = {}, options = {})] *)
Definition changeModalContent (NewComponent : component)
    (newProps options : option obj) (w : world) : world :=
  let '(h, p) := w in
  let h := set_Component (Some (bind NewComponent newProps)) h in
  let h := set_state (spread2 (defaultState h) (spread_opt options)) h in
  updateStyleTransition (h, p).

(** [openModal(NewComponent, newProps = {}, options = {}, callback = {})] *)
Definition openModal (NewComponent : component)
    (newProps options callback : option obj) (w : world) : world :=
  let '(h, p) := w in
  let h := set_Component (Some (bind NewComponent newProps)) h in
  let h := set_state (spread2 (defaultState h) (spread_opt options)) h in
  let '(h, p) := disableScroll (updateStyleTransition (h, p)) in
  let callback := spread_opt callback in
  (set_handlers
     (Hooks (notifying (get callback "onOpen") ["open"; "opening"])
            (notifying (get callback "onClose") ["close"; "closing"])
            (notifying (get callback "onOpened") ["opened"])
            (notifying (get callback "onClosed") ["closed"]))
     h, p).

(** [callback.f || current] *)
Definition or_hook (f : value) (current : hook) : hook :=
  if truthy f then supplied f else current.

(** [closeModal(callback = {})] *)
Definition closeModal (callback : option obj) (w : world) : world :=
  let '(h, p) := w in
  match Component h with
  | None => w
  | Some _ =>
      let callback := spread_opt callback in
      let h :=
        set_handlers
          (Hooks (onOpen (handlers h))
                 (or_hook (get callback "onClose") (onClose (handlers h)))
                 (onOpened (handlers h))
                 (or_hook (get callback "onClosed") (onClosed (handlers h))))
          h in
      let h := set_Component None h in
      enableScroll (h, p)
  end.

(** [isLoading(value = true)]: an omitted or [undefined] argument takes the
    default. *)
Definition isLoading (value : option value) (w : world) : world :=
  let v := match value with
           | None | Some VUndef => VBool true
           | Some v => v
           end in
  (set_loading v w.1, w.2).

(** ** Events and handlers *)

(** The part of a keyboard or mouse event the handlers use. *)
Record event := Event {
  key : string;
  shiftKey : bool;
  target : node;
  defaultPrevented : bool;
}.

Definition preventDefault (e : event) : event :=
  Event (key e) (shiftKey e) (target e) true.

Inductive error := TypeError.

(** The result of a handler: it returns or it throws. *)
Inductive outcome (A : Type) :=
  | Ok (a : A)
  | Throw (e : error).
Arguments Ok {A} a.
Arguments Throw {A} e.

#[global] Instance outcome_ret : MRet outcome := λ A a, Ok a.
#[global] Instance outcome_bind : MBind outcome := λ A B k m,
  match m with
  | Ok a => k a
  | Throw e => Throw e
  end.

(** The numbers of the index computation: an integer or [NaN]. *)
Inductive number :=
  | Int (z : Z)
  | NaN.

(** [a + b] *)
Definition plus (a b : number) : number :=
  match a, b with
  | Int x, Int y => Int (x + y)
  | _, _ => NaN
  end.

(** [a % b]: the sign follows the dividend, and [% 0] is [NaN]. *)
Definition remainder (a b : number) : number :=
  match a, b with
  | Int x, Int y => if y =? 0 then NaN else Int (Z.rem x y)
  | _, _ => NaN
  end.

(** [array.indexOf(x)], on identities; -1 when absent. *)
Fixpoint indexOf (l : list element) (x : node) : Z :=
  match l with
  | [] => -1
  | e :: rest =>
      if Nat.eqb (el_node e) x then 0
      else let i := indexOf rest x in if i =? -1 then -1 else i + 1
  end.

(** [array[index]]: [None] is [undefined]. *)
Definition at_index (l : list element) (index : number) : option element :=
  match index with
  | Int z => if 0 <=? z then l !! Z.to_nat z else None
  | NaN => None
  end.

(** Whether [focus()] moves the focus to the element [x]. *)
Definition takes_focus (p : page) (x : node) : bool :=
  negb (existsb (Nat.eqb x) (unfocusable p)).

(** [x.focus()]: a [TypeError] on [undefined]; on an element, the focus
    moves to it when it can take the focus and stays where it is
    otherwise. *)
Definition focus (x : option element) (p : page) : outcome page :=
  match x with
  | Some e => Ok (if takes_focus p (el_node e)
                  then set_activeElement (el_node e) p
                  else p)
  | None => Throw TypeError
  end.

(** [Array.from(nodes).filter((node) => node.tabIndex >= 0)] *)
Definition tabbable_of (nodes : list element) : list element :=
  List.filter (λ node, 0 <=? tabIndex node) nodes.

(** [handleKeydown(event)] *)
Definition handleKeydown (ev : event) (w : world) : outcome (event * world) :=
  let '(ev, w) :=
    if truthy (get (state w.1) "closeOnEsc") && bool_decide (is_Some (Component w.1))
       && String.eqb (key ev) "Escape"
    then (preventDefault ev, closeModal None w)
    else (ev, w) in
  if bool_decide (is_Some (Component w.1)) && String.eqb (key ev) "Tab"
     && negb (truthy (get (state w.1) "disableFocusTrap"))
  then
    match modalWindow (elements w.1) with
    | None => Throw TypeError
    | Some _ =>
        let tabbable := tabbable_of (dialog_nodes w.2) in
        let index := indexOf tabbable (activeElement w.2) in
        let index := if (index =? -1) && shiftKey ev then 0 else index in
        let len := Int (Z.of_nat (length tabbable)) in
        let index := plus (Int index)
                          (plus len (Int (if shiftKey ev then -1 else 1))) in
        let index := remainder index len in
        p ← focus (at_index tabbable index) w.2;
        mret (preventDefault ev, (w.1, p))
    end
  else Ok (ev, w).

(** [handleOuterMousedown(event)] *)
Definition handleOuterMousedown (ev : event) (w : world) : world :=
  if truthy (get (state w.1) "closeOnOuterClick")
     && (bool_decide (Some (target ev) = background (elements w.1))
         || bool_decide (Some (target ev) = wrap (elements w.1)))
  then (set_outerClickTarget (Some (target ev)) w.1, w.2)
  else w.

(** [handleOuterMouseup(event)] *)
Definition handleOuterMouseup (ev : event) (w : world) : event * world :=
  if truthy (get (state w.1) "closeOnOuterClick")
     && bool_decide (Some (target ev) = outerClickTarget w.1)
  then (preventDefault ev, closeModal None w)
  else (ev, w).

(** [isFunction(f)] on the values the [show] prop is declared to hold, a
    component or [null] (line 31): a function has [constructor], [call]
    and [apply].  The test of line 231 also passes any other object with
    truthy properties of these names; such a [show] is outside what is
    modelled here. *)
Definition isFunction (f : value) : bool :=
  match f with
  | VFun _ => true
  | _ => false
  end.

(** The reactive block of lines 387-395, run when the bound [show] value
    changes. *)
Definition show_changed (isMounted : bool) (show : value) (w : world) : world :=
  if isMounted then
    match show with
    | VFun c => if isFunction show then openModal c None None None w
                else closeModal None w
    | _ => closeModal None w
    end
  else w.

(** ** Mounting *)

(** The transition [fade] of [svelte/transition]. *)
Definition fade : value := VFun 0.

(** The defaults of the exported props, as [defaultState] collects them
    (lines 33-198). *)
Definition documented_defaults : obj :=
  list_to_map
    [("ariaLabel", VNull); ("ariaLabelledBy", VNull);
     ("closeButton", VBool true); ("closeOnEsc", VBool true);
     ("closeOnOuterClick", VBool true);
     ("styleBg", VRec []); ("styleWindowWrap", VRec []);
     ("styleWindow", VRec []); ("styleContent", VRec []);
     ("styleCloseButton", VRec []);
     ("classBg", VNull); ("classWindowWrap", VNull); ("classWindow", VNull);
     ("classContent", VNull); ("classCloseButton", VNull);
     ("transitionBg", fade);
     ("transitionBgProps", VRec [("duration", PNum 250)]);
     ("transitionWindow", fade);
     ("transitionWindowProps", VRec [("duration", PNum 250)]);
     ("disableFocusTrap", VBool false); ("unstyled", VBool false)].

(** The variables right after the script has run: [state] is a copy of
    [defaultState], nothing is shown, every other variable has its
    initial value. *)
Definition mounted (defaults : obj) : host :=
  Host defaults defaults None
       (Refs None None None)
       (Saved None None None None)
       (Styling None None None None None VUndef VUndef)
       (Hooks toVoid toVoid toVoid toVoid)
       None (VBool false).

(** The [bind:this] directives of the markup, once the [{#if Component}]
    block has been created: the three references point to its elements. *)
Definition rendered (bg wr win : node) (w : world) : world :=
  (set_elements (Refs (Some bg) (Some wr) (Some win)) w.1, w.2).

(** The page after the user, or the browser laying it out again, has moved
    the window to the offsets [x] and [y]. *)
Definition scrolled (x y : Z) (p : page) : page := scrollTo x (Some y) p.

(** ** Sample pages, sessions and events *)

(** Element identities used in the examples. *)
Definition the_body : node := 0%nat.
Definition the_background : node := 1%nat.
Definition the_wrap : node := 2%nat.
Definition the_window : node := 3%nat.
Definition the_content : node := 4%nat.
Definition the_close_button : node := 5%nat.

(** Two components to show. *)
Definition ContentX : component := 1%nat.
Definition ContentY : component := 2%nat.

(** A page scrolled down by 120 pixels whose body carries inline styles of
    its own, with the focus on the body. *)
Definition sample_page : page :=
  Page (BodyStyle "relative" "" "auto" "") 0 120 1024 768 [] the_body [].

(** A freshly mounted host with the documented defaults on that page. *)
Definition fresh : world := (mounted documented_defaults, sample_page).

(** The page once the dialog shows the elements [nodes] below its window. *)
Definition showing (nodes : list element) (w : world) : world :=
  let '(h, p) := rendered the_background the_wrap the_window w in
  (h, Page (body p) (win_scrollX p) (win_scrollY p) (innerWidth p)
           (innerHeight p) nodes (activeElement p) (unfocusable p)).

Definition keydown (k : string) (shift : bool) : event :=
  Event k shift the_body false.

Definition mouse (on : node) : event := Event "" false on false.

(** Scenario E: the close button and two fields below the window, the
    focus on the last of them. *)
Definition scenario_E : world :=
  let '(h, p) :=
    showing [Element the_close_button 0; Element the_content (-1);
             Element 6%nat 0; Element 7%nat 0]
            (openModal ContentX None None None fresh) in
  (h, set_activeElement 7%nat p).

(** A dialog showing a field and, after it, a disabled button: the tab
    index of both is 0, the focus is on the field. *)
Definition disabled_next : world :=
  let '(h, p) := showing [Element 6%nat 0; Element 7%nat 0]
                         (openModal ContentX None None None fresh) in
  (h, Page (body p) (win_scrollX p) (win_scrollY p) (innerWidth p)
           (innerHeight p) (dialog_nodes p) 6%nat [7%nat]).

(** ** Properties that fail, as predicates on an input *)

(** "If the currently focused element is at index i in the focusable set,
    of size n, focus moves to index (i+1) mod n for Tab and (i-1) mod n for
    Shift+Tab, and the browser's default tab behavior is suppressed." *)
Definition tab_moves_focus (ev : event) (w : world) (i : Z) : Prop :=
  is_Some (Component w.1) →
  is_Some (modalWindow (elements w.1)) →
  key ev = "Tab" →
  truthy (get (state w.1) "disableFocusTrap") = false →
  let tabbable := tabbable_of (dialog_nodes w.2) in
  let n := Z.of_nat (length tabbable) in
  indexOf tabbable (activeElement w.2) = i →
  0 ≤ i →
  ∃ e,
    tabbable !! Z.to_nat ((i + (if shiftKey ev then -1 else 1)) `mod` n)
    = Some e
    ∧ handleKeydown ev w
      = Ok (preventDefault ev, (w.1, set_activeElement (el_node e) w.2)).

(** "For every call to changeContent when no session exists the call is a
    silent no-op: no state changes." *)
Definition changeContent_is_noop (C : component) (props o : option obj)
    (w : world) : Prop :=
  Component w.1 = None → changeModalContent C props o w = w.

(** "For every call to setLoading(flag) made while no session is active,
    the call has no effect, and a session opened afterwards does not start
    with a loading flag left over from such a call." *)
Definition setLoading_is_noop (flag : option value) (w : world) : Prop :=
  Component w.1 = None →
  isLoading flag w = w
  ∧ ∀ C props o cb,
      loading (openModal C props o cb (isLoading flag w)).1 = loading w.1.

(** ** Lifecycle handlers, attributes of the markup, runs of operations *)

(** What running a lifecycle handler does, in order: calls of the caller's
    functions and events dispatched to the parent. *)
Inductive effect :=
  | Call (f : value)
  | Dispatch (name : string).

(** [typeof f === 'function'] *)
Definition callable (f : value) : bool :=
  match f with
  | VFun _ => true
  | _ => false
  end.

(** [f(event)]: a [TypeError] when [f] is not a function. *)
Definition invoke (f : value) : outcome (list effect) :=
  if callable f then Ok [Call f] else Throw TypeError.

(** Running a handler (lines 252-312): [toVoid] does nothing, a closure of
    [openModal] calls the caller's callback when there is one and then
    dispatches its events, a function installed by [closeModal] is just
    called.  The markup's [on:outrostart={onClose}] calls the value of the
    variable only when it is a function. *)
Definition run_hook (h : hook) : outcome (list effect) :=
  match h with
  | toVoid => Ok []
  | notifying callback events =>
      called ← (if truthy callback then invoke callback else Ok []);
      mret (called ++ map Dispatch events)
  | supplied f => if callable f then invoke f else Ok []
  end.

(** [v || null] *)
Definition or_null (v : value) : value := if truthy v then v else VNull.

(** [aria-label={state.ariaLabelledBy ? null : state.ariaLabel || null}]
    (line 430) *)
Definition aria_label (st : obj) : value :=
  if truthy (get st "ariaLabelledBy") then VNull
  else or_null (get st "ariaLabel").

(** [aria-labelledby={state.ariaLabelledBy || null}] (line 431) *)
Definition aria_labelledby (st : obj) : value :=
  or_null (get st "ariaLabelledBy").

(** The callback of [svelte.onDestroy] (lines 397-399). *)
Definition onDestroy (isMounted : bool) (w : world) : world :=
  if isMounted then closeModal None w else w.

(** [props[k]] on a style record. *)
Fixpoint prop_of (k : string) (r : list (string * prim)) : option prim :=
  match r with
  | [] => None
  | (k', v) :: rest => if String.eqb k' k then Some v else prop_of k rest
  end.

(** Every character of [s] is an ASCII character. *)
Fixpoint all_ascii (s : string) : bool :=
  match s with
  | EmptyString => true
  | String c rest => (nat_of_ascii c <? 128)%nat && all_ascii rest
  end.

(** No upper-case ASCII letter occurs in [s]. *)
Fixpoint no_upper (s : string) : bool :=
  match s with
  | EmptyString => true
  | String c rest => negb (is_upper c) && no_upper rest
  end.

(** What can happen to a mounted host: a call of the control API, an
    event reaching one of the three handlers, a change of the bound [show]
    value, the destruction of the host. *)
Inductive op :=
  | Open (C : component) (props options callback : option obj)
  | Change (C : component) (props options : option obj)
  | Close (callback : option obj)
  | Loading (flag : option value)
  | Keydown (ev : event)
  | Mousedown (ev : event)
  | Mouseup (ev : event)
  | Show (v : value)
  | Destroy.

(** One step.  A [handleKeydown] that throws has assigned nothing before
    it throws, so the variables are as they were. *)
Definition step (o : op) (w : world) : world :=
  match o with
  | Open C props options callback => openModal C props options callback w
  | Change C props options => changeModalContent C props options w
  | Close callback => closeModal callback w
  | Loading flag => isLoading flag w
  | Keydown ev => match handleKeydown ev w with
                  | Ok (_, w') => w'
                  | Throw _ => w
                  end
  | Mousedown ev => handleOuterMousedown ev w
  | Mouseup ev => (handleOuterMouseup ev w).2
  | Show v => show_changed true v w
  | Destroy => onDestroy true w
  end.

Definition run (ops : list op) (w : world) : world :=
  foldl (λ w o, step o w) w ops.

(** The steps that neither open nor close: a change of content, of the
    loading flag, a press of the mouse, a key other than Escape. *)
Definition within_session (o : op) : bool :=
  match o with
  | Change _ _ _ | Loading _ | Mousedown _ => true
  | Keydown ev => negb (String.eqb (key ev) "Escape")
  | _ => false
  end.

(** Kinds of steps. *)
Definition is_mouse (o : op) : bool :=
  match o with
  | Mousedown _ | Mouseup _ => true
  | _ => false
  end.

Definition opens (o : op) : bool :=
  match o with
  | Open _ _ _ _ | Show _ => true
  | _ => false
  end.

Definition sets_loading (o : op) : bool :=
  match o with
  | Loading _ => true
  | _ => false
  end.

Definition presses (o : op) : bool :=
  match o with
  | Mousedown _ => true
  | _ => false
  end.

(** [n] rounds of [openModal(C)] followed by [closeModal()]. *)
Fixpoint open_close_rounds (n : nat) (C : component) (w : world) : world :=
  match n with
  | O => w
  | S n => open_close_rounds n C (closeModal None (openModal C None None None w))
  end.

(** The style strings and transitions of the regions other than the
    background are the ones of the current configuration. *)
Definition styles_current (h : host) : Prop :=
  cssWindowWrap (css h) = Some (toCssString (get (state h) "styleWindowWrap"))
  ∧ cssWindow (css h) = Some (toCssString (get (state h) "styleWindow"))
  ∧ cssContent (css h) = Some (toCssString (get (state h) "styleContent"))
  ∧ cssCloseButton (css h)
    = Some (toCssString (get (state h) "styleCloseButton"))
  ∧ currentTransitionBg (css h) = get (state h) "transitionBg"
  ∧ currentTransitionWindow (css h) = get (state h) "transitionWindow".

(** ** Properties of [bind] and of the configuration merge *)

Lemma spread2_lookup (a b : obj) (k : string) :
  spread2 a b !! k = match b !! k with Some v => Some v | None => a !! k end.
Proof.
  unfold spread2. rewrite lookup_union.
  destruct (b !! k) as [v|] eqn:Hb; destruct (a !! k) eqn:Ha; reflexivity.
Qed.

Lemma spread2_empty_r (a : obj) : spread2 a ∅ = a.
Proof. unfold spread2. apply (left_id_L ∅ (∪)). Qed.

(** C10. The component returned by [bind(C, p)], called with options [o],
    constructs [C] once, on the options [o] with [props] replaced by the
    merge of [p] and [o.props]: a key of [o.props] gets the value it has
    there, every other key the value it has in [p].  With the props
    argument left out, [p] is the empty object. *)
Theorem bind_merges_props (C : component) (p : option obj) (o : options) :
  let merged := spread2 (default ∅ p) (spread_opt (opt_props o)) in
  call (bind C p) o = New C (Options (Some merged) (opt_rest o))
  ∧ (∀ k, merged !! k =
          match spread_opt (opt_props o) !! k with
          | Some v => Some v
          | None => default ∅ p !! k
          end)
  ∧ bind C None = bind C (Some ∅)
  ∧ (∀ k, bound_props (bind C None) !! k = None).
Proof.
  cbn zeta. split_and!.
  - reflexivity.
  - intros k. apply spread2_lookup.
  - reflexivity.
  - intros k. cbn. apply lookup_empty.
Qed.

(** The props of an instantiation, read on the arguments themselves. *)
Lemma props_of_call (C : component) (p q : obj) (rest : obj) (k : string) :
  new_Component (call (bind C (Some p)) (Options (Some q) rest)) = C
  ∧ opt_rest (new_options (call (bind C (Some p)) (Options (Some q) rest)))
    = rest
  ∧ (∃ merged,
       opt_props (new_options (call (bind C (Some p)) (Options (Some q) rest)))
       = Some merged
       ∧ merged !! k
         = match q !! k with Some v => Some v | None => p !! k end)
  ∧ opt_props (new_options (call (bind C (Some p)) (Options None rest)))
    = Some p
  ∧ opt_props (new_options (call (bind C None) (Options (Some q) rest)))
    = Some q.
Proof.
  split_and!; try reflexivity.
  - eexists. split; [reflexivity|]. apply spread2_lookup.
  - cbn. f_equal. apply spread2_empty_r.
  - cbn. f_equal. unfold spread2. apply (right_id_L ∅ (∪)).
Qed.

Lemma changeModalContent_state C props o w :
  state (changeModalContent C props o w).1
  = spread2 (defaultState w.1) (spread_opt o).
Proof. destruct w as [h p]. reflexivity. Qed.

Lemma openModal_state C props o cb w :
  state (openModal C props o cb w).1
  = spread2 (defaultState w.1) (spread_opt o).
Proof. destruct w as [h p]. reflexivity. Qed.

(** C7. After [openModal] or [changeModalContent] with overrides [o], the
    configuration holds, under every key, the value supplied in [o] when
    the key is supplied and the default otherwise; the defaults themselves
    are not touched. *)
Theorem merged_configuration (C : component) (props o cb : option obj)
    (w : world) (k : string) :
  let expected := match spread_opt o !! k with
                  | Some v => Some v
                  | None => defaultState w.1 !! k
                  end in
  state (openModal C props o cb w).1 !! k = expected
  ∧ state (changeModalContent C props o w).1 !! k = expected
  ∧ defaultState (openModal C props o cb w).1 = defaultState w.1
  ∧ defaultState (changeModalContent C props o w).1 = defaultState w.1.
Proof.
  cbn zeta. rewrite openModal_state, changeModalContent_state.
  rewrite spread2_lookup. destruct w as [h p]. split_and!; reflexivity.
Qed.

(** The same, read on the argument itself: overrides [m], or none. *)
Lemma configuration_of_overrides (C : component) (props cb : option obj)
    (m : obj) (w : world) (k : string) :
  state (openModal C props (Some m) cb w).1 !! k
  = match m !! k with Some v => Some v | None => defaultState w.1 !! k end
  ∧ state (changeModalContent C props (Some m) w).1 !! k
    = match m !! k with Some v => Some v | None => defaultState w.1 !! k end
  ∧ state (openModal C props None cb w).1 = defaultState w.1
  ∧ state (changeModalContent C props None w).1 = defaultState w.1.
Proof.
  rewrite !openModal_state, !changeModalContent_state.
  split_and!; try apply spread2_lookup; apply spread2_empty_r.
Qed.

(** With no overrides the configuration is the documented one. *)
Example defaults_without_overrides (p : page) :
  state (openModal 1%nat None None None (mounted documented_defaults, p)).1
  = documented_defaults.
Proof. rewrite openModal_state. apply spread2_empty_r. Qed.

Example override_of_one_key (p : page) :
  let w := openModal 1%nat None (Some {["closeOnEsc" := VBool false]}) None
                     (mounted documented_defaults, p) in
  get (state w.1) "closeOnEsc" = VBool false
  ∧ get (state w.1) "closeOnOuterClick" = VBool true.
Proof.
  cbn zeta. rewrite openModal_state. unfold get.
  rewrite !spread2_lookup. split; vm_compute; reflexivity.
Qed.

(** ** The scroll lock *)

Lemma or_empty_Some (s : string) : or_empty (Some s) = s.
Proof.
  unfold or_empty. destruct (String.eqb s "") eqn:E; [|reflexivity].
  apply String.eqb_eq in E. congruence.
Qed.

(** C4. Whatever inline position, overflow, width and top the body has
    and wherever the window is scrolled, [disableScroll] followed by
    [enableScroll] gives the body its position, overflow and width back,
    leaves its top empty, and scrolls the window to the vertical offset it
    had, also when the window was moved to other offsets [x], [y] while
    the lock was engaged. *)
Theorem scroll_lock_round_trip (h : host) (p : page) (x y : Z) :
  let locked := disableScroll (h, p) in
  let p' := (enableScroll (locked.1, scrolled x y locked.2)).2 in
  style_position (body p') = style_position (body p)
  ∧ style_overflow (body p') = style_overflow (body p)
  ∧ style_width (body p') = style_width (body p)
  ∧ style_top (body p') = ""
  ∧ win_scrollY p' = win_scrollY p.
Proof.
  cbn -[or_empty]. rewrite !or_empty_Some. split_and!; reflexivity.
Qed.

(** While engaged, the lock shows the values of lines 369-372. *)
Lemma disableScroll_body (w : world) :
  body (disableScroll w).2
  = BodyStyle "fixed" ("-" +:+ pretty (win_scrollY w.2) +:+ "px")
              "hidden" "100%".
Proof. destruct w as [h p]. reflexivity. Qed.

(** [window.scrollTo(0, scrollY)] puts the horizontal offset at 0. *)
Lemma enableScroll_scrollX (w : world) : win_scrollX (enableScroll w).2 = 0.
Proof. destruct w as [h p]. reflexivity. Qed.

Example scroll_lock_sample :
  let locked := disableScroll fresh in
  body locked.2 = BodyStyle "fixed" "-120px" "hidden" "100%"
  ∧ (enableScroll locked).2 = sample_page.
Proof. split; vm_compute; reflexivity. Qed.

(** ** Opening twice *)

Lemma openModal_lock C props o cb (w : world) :
  lock (openModal C props o cb w).1
  = Saved (Some (win_scrollY w.2)) (Some (style_position (body w.2)))
          (Some (style_overflow (body w.2))) (Some (style_width (body w.2))).
Proof. destruct w as [h p]. reflexivity. Qed.

Lemma openModal_body C props o cb (w : world) :
  body (openModal C props o cb w).2
  = BodyStyle "fixed" ("-" +:+ pretty (win_scrollY w.2) +:+ "px")
              "hidden" "100%".
Proof. destruct w as [h p]. reflexivity. Qed.

Lemma openModal_Component C props o cb (w : world) :
  Component (openModal C props o cb w).1 = Some (bind C props).
Proof. destruct w as [h p]. reflexivity. Qed.

(** Every [openModal] captures anew: opened on a page that is already
    locked, it records the values of the lock as the ones to restore. *)
Lemma reopen_overwrites_snapshot C1 props1 o1 cb1 C2 props2 o2 cb2 (w : world) :
  let reopened := openModal C2 props2 o2 cb2 (openModal C1 props1 o1 cb1 w) in
  prevBodyPosition (lock reopened.1) = Some "fixed"
  ∧ prevBodyOverflow (lock reopened.1) = Some "hidden"
  ∧ prevBodyWidth (lock reopened.1) = Some "100%".
Proof.
  cbn zeta. rewrite openModal_lock, openModal_body. split_and!; reflexivity.
Qed.

Lemma close_after_reopen C1 props1 o1 cb1 C2 props2 o2 cb2 cb (w : world) :
  body (closeModal cb (openModal C2 props2 o2 cb2
                         (openModal C1 props1 o1 cb1 w))).2
  = BodyStyle "fixed" "" "hidden" "100%".
Proof. destruct w as [h p]. reflexivity. Qed.

(** C1. On the sample page (body position [relative], overflow [auto],
    scrolled to 120) [openModal(ContentX)], [openModal(ContentY)],
    [closeModal()] does not give the body its styles back: the second
    [openModal] runs [disableScroll] again and replaces the snapshot of
    the first by the values of the lock, which [closeModal] then writes to
    the body.  When the window reports the offset 0 while the body is
    fixed, the offset 120 is lost as well. *)
Theorem reopen_then_close_keeps_body_locked :
  let opened := openModal ContentX None None None fresh in
  let reopened := openModal ContentY None None None opened in
  let closed := closeModal None reopened in
  let reopened0 :=
    openModal ContentY None None None (opened.1, scrolled 0 0 opened.2) in
  body fresh.2 = BodyStyle "relative" "" "auto" ""
  ∧ win_scrollY fresh.2 = 120
  ∧ lock opened.1 = Saved (Some 120) (Some "relative") (Some "auto") (Some "")
  ∧ lock reopened.1
    = Saved (Some 120) (Some "fixed") (Some "hidden") (Some "100%")
  ∧ Component closed.1 = None
  ∧ body closed.2 = BodyStyle "fixed" "" "hidden" "100%"
  ∧ win_scrollY (closeModal None reopened0).2 = 0.
Proof. cbn zeta. split_and!; vm_compute; reflexivity. Qed.

(** The same through the declarative trigger: [show] set to one
    component, then to another, then cleared. *)
Example show_twice_then_clear :
  body (show_changed true VNull
          (show_changed true (VFun ContentY)
             (show_changed true (VFun ContentX) fresh))).2
  = BodyStyle "fixed" "" "hidden" "100%".
Proof. apply close_after_reopen. Qed.

(** The sibling operation swaps the content under the lock of the first
    [openModal], and the close after it restores the page. *)
Lemma changeModalContent_keeps_lock C props o (w : world) :
  lock (changeModalContent C props o w).1 = lock w.1
  ∧ (changeModalContent C props o w).2 = w.2.
Proof. destruct w as [h p]. split; reflexivity. Qed.

Example open_change_close_restores :
  (closeModal None
     (changeModalContent ContentY None None
        (openModal ContentX None None None fresh))).2 = sample_page.
Proof. vm_compute. reflexivity. Qed.

(** ** Outside clicks *)

Lemma closeModal_outerClickTarget cb (w : world) :
  outerClickTarget (closeModal cb w).1 = outerClickTarget w.1.
Proof. destruct w as [h p]. cbn. destruct (Component h); reflexivity. Qed.

(** No pointer-up clears the remembered target. *)
Lemma handleOuterMouseup_keeps_target (ev : event) (w : world) :
  outerClickTarget (handleOuterMouseup ev w).2.1 = outerClickTarget w.1.
Proof.
  unfold handleOuterMouseup.
  destruct (_ && _); cbn [fst snd]; [apply closeModal_outerClickTarget | reflexivity].
Qed.

(** A pointer-down elsewhere does not replace it either. *)
Lemma handleOuterMousedown_elsewhere (ev : event) (w : world) :
  Some (target ev) ≠ background (elements w.1) →
  Some (target ev) ≠ wrap (elements w.1) →
  handleOuterMousedown ev w = w.
Proof.
  intros Hb Hw. unfold handleOuterMousedown.
  rewrite !bool_decide_eq_false_2 by assumption.
  rewrite andb_false_r. reflexivity.
Qed.

(** C5. In one session: a press on the background released on the content
    does not close, and leaves the background remembered; a later press on
    the content released on the background then closes the modal, on the
    target remembered from the earlier press. *)
Theorem stale_target_closes :
  let w0 := showing [Element the_close_button 0; Element the_content (-1)]
                    (openModal ContentX None None None fresh) in
  let w1 := handleOuterMousedown (mouse the_background) w0 in
  let r2 := handleOuterMouseup (mouse the_content) w1 in
  let w3 := handleOuterMousedown (mouse the_content) r2.2 in
  let r4 := handleOuterMouseup (mouse the_background) w3 in
  outerClickTarget w0.1 = None
  ∧ outerClickTarget w1.1 = Some the_background
  ∧ is_Some (Component r2.2.1)
  ∧ outerClickTarget r2.2.1 = Some the_background
  ∧ w3 = r2.2
  ∧ Component r4.2.1 = None
  ∧ defaultPrevented r4.1 = true.
Proof.
  cbn zeta. split_and!; try (vm_compute; reflexivity).
  vm_compute. eexists. reflexivity.
Qed.

(** ** Operations called while nothing is shown *)

(** C3, as stated, fails on the freshly mounted host: after
    [changeModalContent(ContentX)] a component is set, so the modal is
    displayed. *)
Lemma changeContent_shows_content :
  ¬ changeContent_is_noop ContentX None None fresh.
Proof.
  intros H. specialize (H eq_refl).
  apply (f_equal (λ w : world, Component w.1)) in H.
  vm_compute in H. discriminate H.
Qed.

(** C3, amended. With no session, [changeModalContent] raises nothing and
    leaves the page, the saved scroll snapshot, the lifecycle handlers,
    the loading flag, the remembered click target and the defaults as they
    are; it does set the content, bound to its props, and the
    configuration, the defaults overridden by the supplied keys, so the
    modal becomes displayed. *)
Theorem changeContent_without_session (C : component) (props o : option obj)
    (w : world) :
  Component w.1 = None →
  let w' := changeModalContent C props o w in
  Component w'.1 = Some (bind C props)
  ∧ (∀ k, state w'.1 !! k = match spread_opt o !! k with
                            | Some v => Some v
                            | None => defaultState w.1 !! k
                            end)
  ∧ w'.2 = w.2
  ∧ lock w'.1 = lock w.1
  ∧ handlers w'.1 = handlers w.1
  ∧ loading w'.1 = loading w.1
  ∧ outerClickTarget w'.1 = outerClickTarget w.1
  ∧ elements w'.1 = elements w.1
  ∧ defaultState w'.1 = defaultState w.1.
Proof.
  intros _. cbn zeta. split_and!; try (destruct w as [h p]; reflexivity).
  intros k. rewrite changeModalContent_state. apply spread2_lookup.
Qed.

Lemma changeContent_without_session_witness :
  Component fresh.1 = None
  ∧ Component (changeModalContent ContentX None None fresh).1
    = Some (bind ContentX None).
Proof.
  split; [reflexivity|].
  apply (changeContent_without_session ContentX None None fresh).
  reflexivity.
Defined.

(** That content is shown without the scroll lock: the body keeps its
    styles and the window its offset. *)
Example changeContent_does_not_lock :
  (changeModalContent ContentX None None fresh).2 = sample_page.
Proof. vm_compute. reflexivity. Qed.

(** C6, as stated, fails on the freshly mounted host: [isLoading()] turns
    the flag on. *)
Lemma setLoading_changes_flag : ¬ setLoading_is_noop None fresh.
Proof.
  intros H. destruct (H eq_refl) as [H1 _].
  apply (f_equal (λ w : world, loading w.1)) in H1.
  vm_compute in H1. discriminate H1.
Qed.

Lemma openModal_loading C props o cb (w : world) :
  loading (openModal C props o cb w).1 = loading w.1.
Proof. destruct w as [h p]. reflexivity. Qed.

Lemma closeModal_loading cb (w : world) :
  loading (closeModal cb w).1 = loading w.1.
Proof. destruct w as [h p]. cbn. destruct (Component h); reflexivity. Qed.

(** C6, amended. With no session, [isLoading(flag)] changes the loading
    flag of the host and nothing else: nothing becomes displayed, and the
    configuration, the scroll snapshot, the handlers, the styles, the
    remembered click target and the page stay as they are.  The flag
    belongs to the host, not to a session: neither [openModal] nor
    [closeModal] resets it, so a session opened afterwards starts with the
    flag that was set. *)
Theorem setLoading_without_session (flag : option value) (w : world) :
  Component w.1 = None →
  let v := match flag with
           | None | Some VUndef => VBool true
           | Some v => v
           end in
  let w' := isLoading flag w in
  loading w'.1 = v
  ∧ Component w'.1 = None
  ∧ state w'.1 = state w.1
  ∧ lock w'.1 = lock w.1
  ∧ handlers w'.1 = handlers w.1
  ∧ css w'.1 = css w.1
  ∧ outerClickTarget w'.1 = outerClickTarget w.1
  ∧ elements w'.1 = elements w.1
  ∧ defaultState w'.1 = defaultState w.1
  ∧ w'.2 = w.2
  ∧ (∀ C props o cb, loading (openModal C props o cb w').1 = v)
  ∧ (∀ C props o cb cb',
       loading (closeModal cb' (openModal C props o cb w')).1 = v).
Proof.
  intros Hnone. cbn zeta. split_and!; first [exact Hnone | reflexivity].
Qed.

Lemma setLoading_without_session_witness :
  Component fresh.1 = None
  ∧ loading (isLoading None fresh).1 = VBool true
  ∧ loading (openModal ContentX None None None (isLoading None fresh)).1
    = VBool true.
Proof.
  split; [reflexivity|].
  pose proof (setLoading_without_session None fresh eq_refl) as H.
  cbn zeta in H. split; [apply H|].
  destruct H as (_ & _ & _ & _ & _ & _ & _ & _ & _ & _ & H & _). apply H.
Defined.

(** ** The keyboard *)

Lemma indexOf_lower (l : list element) (x : node) : -1 ≤ indexOf l x.
Proof.
  induction l as [|e l IH]; cbn; [lia|].
  destruct (Nat.eqb (el_node e) x); [lia|].
  destruct (indexOf l x =? -1) eqn:E; lia.
Qed.

(** A non-negative result of [indexOf] is the position of an element with
    the identity that was looked for. *)
Lemma indexOf_lookup (l : list element) (x : node) (i : Z) :
  indexOf l x = i → 0 ≤ i →
  ∃ e, l !! Z.to_nat i = Some e ∧ el_node e = x.
Proof.
  revert i. induction l as [|e l IH]; intros i Hi Hpos; cbn in Hi; [lia|].
  destruct (Nat.eqb (el_node e) x) eqn:Ee.
  - subst i. exists e. split; [reflexivity|]. by apply Nat.eqb_eq.
  - destruct (indexOf l x =? -1) eqn:E; [lia|].
    apply Z.eqb_neq in E. pose proof (indexOf_lower l x) as Hl.
    destruct (IH (indexOf l x) eq_refl ltac:(lia)) as (e' & Hl' & He').
    exists e'. split; [|exact He'].
    subst i. replace (Z.to_nat (indexOf l x + 1)) with (S (Z.to_nat (indexOf l x))) by lia.
    exact Hl'.
Qed.

Lemma indexOf_upper (l : list element) (x : node) :
  indexOf l x < Z.of_nat (length l).
Proof.
  pose proof (indexOf_lower l x) as Hl.
  destruct (decide (0 ≤ indexOf l x)) as [Hpos|]; [|lia].
  destruct (indexOf_lookup l x _ eq_refl Hpos) as (e & He & _).
  apply lookup_lt_Some in He. lia.
Qed.

Lemma not_Escape (ev : event) : key ev = "Tab" → String.eqb (key ev) "Escape" = false.
Proof. intros ->. reflexivity. Qed.

(** With nothing focusable below the window the index computation ends in
    [% 0], the element read is [undefined], and [focus()] throws. *)
Lemma tab_on_empty_set_throws (ev : event) (w : world) :
  is_Some (Component w.1) →
  key ev = "Tab" →
  truthy (get (state w.1) "disableFocusTrap") = false →
  tabbable_of (dialog_nodes w.2) = [] →
  handleKeydown ev w = Throw TypeError.
Proof.
  intros Hc Hk Ht He. unfold handleKeydown.
  rewrite (not_Escape ev Hk), andb_false_r.
  rewrite (bool_decide_eq_true_2 _ Hc), Hk, Ht. cbn [andb negb String.eqb].
  replace (String.eqb "Tab" "Tab") with true by reflexivity. cbn [andb].
  destruct (modalWindow (elements w.1)); [|reflexivity].
  rewrite He. cbn. destruct (shiftKey ev); reflexivity.
Qed.

(** C2. A session shown without close button and with no focusable
    content: the focusable set is empty, and both Tab and Shift+Tab make
    [handleKeydown] throw a [TypeError] instead of doing nothing. *)
Theorem tab_without_focusable_throws :
  let w := showing [Element the_content (-1)]
             (openModal ContentX None
                        (Some {["closeButton" := VBool false]}) None fresh) in
  is_Some (Component w.1)
  ∧ truthy (get (state w.1) "disableFocusTrap") = false
  ∧ tabbable_of (dialog_nodes w.2) = []
  ∧ handleKeydown (keydown "Tab" false) w = Throw TypeError
  ∧ handleKeydown (keydown "Tab" true) w = Throw TypeError.
Proof.
  cbn zeta. split_and!; try (vm_compute; reflexivity).
  vm_compute. eexists. reflexivity.
Qed.

(** C8, as stated, fails when the next element of the focusable set
    cannot take the focus: with a field followed by a disabled button and
    the focus on the field, Tab calls [focus()] on the button, which does
    nothing, and the focus stays on the field. *)
Lemma disabled_element_keeps_focus :
  ¬ tab_moves_focus (keydown "Tab" false) disabled_next 0.
Proof.
  intros H. destruct H as (e & He & Hrun).
  - vm_compute. eexists. reflexivity.
  - vm_compute. eexists. reflexivity.
  - reflexivity.
  - vm_compute. reflexivity.
  - reflexivity.
  - lia.
  - vm_compute in He. injection He as <-.
    apply (f_equal (λ r : outcome (event * world),
                      match r with
                      | Ok (_, w') => activeElement w'.2
                      | Throw _ => 0%nat
                      end)) in Hrun.
    vm_compute in Hrun. discriminate Hrun.
Qed.

(** C8, amended. A session is shown, the dialog window is bound, the
    focus trap is on, and the focused element is found at index [i] of the
    focusable set, of size [n]: when the element at index [(i + 1) mod n]
    for Tab, [(i - 1) mod n] for Shift+Tab, can take the focus, the focus
    moves to it, the default action of the event is prevented, and nothing
    else changes. *)
Theorem tab_cycles_focus (ev : event) (w : world) (i : Z) :
  is_Some (Component w.1) →
  is_Some (modalWindow (elements w.1)) →
  key ev = "Tab" →
  truthy (get (state w.1) "disableFocusTrap") = false →
  let tabbable := tabbable_of (dialog_nodes w.2) in
  let n := Z.of_nat (length tabbable) in
  indexOf tabbable (activeElement w.2) = i →
  0 ≤ i →
  0 < n
  ∧ ∃ e,
      tabbable !! Z.to_nat ((i + (if shiftKey ev then -1 else 1)) `mod` n)
      = Some e
      ∧ (takes_focus w.2 (el_node e) = true →
         handleKeydown ev w
         = Ok (preventDefault ev, (w.1, set_activeElement (el_node e) w.2))).
Proof.
  intros Hc [mw Hm] Hk Ht tabbable n Hi Hpos.
  pose proof (indexOf_upper tabbable (activeElement w.2)) as Hup.
  fold n in Hup. rewrite Hi in Hup.
  assert (Hn : 0 < n) by lia. split; [exact Hn|].
  set (d := if shiftKey ev then -1 else 1).
  assert (Hd : d = -1 ∨ d = 1) by (unfold d; destruct (shiftKey ev); auto).
  assert (Hrem : Z.rem (i + (n + d)) n = (i + d) `mod` n).
  { rewrite Z.rem_mod_nonneg by lia.
    replace (i + (n + d)) with (i + d + 1 * n) by lia.
    apply Z_mod_plus_full. }
  pose proof (Z.mod_pos_bound (i + d) n Hn) as Hb.
  destruct (lookup_lt_is_Some_2 tabbable (Z.to_nat ((i + d) `mod` n)))
    as [e He]; [unfold n in *; lia|].
  exists e. split; [exact He|]. intros Hfocus.
  unfold handleKeydown.
  rewrite (not_Escape ev Hk), andb_false_r.
  rewrite (bool_decide_eq_true_2 _ Hc), Hk, Ht, Hm.
  replace (String.eqb "Tab" "Tab") with true by reflexivity.
  cbn [andb negb]. fold tabbable. rewrite Hi.
  replace (i =? -1) with false by (symmetry; apply Z.eqb_neq; lia).
  cbn [andb plus]. fold n. fold d. unfold remainder.
  replace (n =? 0) with false by (symmetry; apply Z.eqb_neq; lia).
  rewrite Hrem. unfold at_index.
  replace (0 <=? (i + d) `mod` n) with true by (symmetry; apply Z.leb_le; lia).
  rewrite He. unfold focus. rewrite Hfocus. reflexivity.
Qed.

(** Scenario E: three focusable elements, the focus on the third, Tab. *)
Lemma tab_cycles_focus_witness :
  tabbable_of (dialog_nodes scenario_E.2)
  = [Element the_close_button 0; Element 6%nat 0; Element 7%nat 0]
  ∧ indexOf (tabbable_of (dialog_nodes scenario_E.2))
            (activeElement scenario_E.2) = 2
  ∧ takes_focus scenario_E.2 the_close_button = true
  ∧ ∃ e, el_node e = the_close_button
         ∧ handleKeydown (keydown "Tab" false) scenario_E
           = Ok (preventDefault (keydown "Tab" false),
                 (scenario_E.1, set_activeElement (el_node e) scenario_E.2)).
Proof.
  split; [reflexivity|]. split; [reflexivity|]. split; [reflexivity|].
  destruct (tab_cycles_focus (keydown "Tab" false) scenario_E 2)
    as (_ & e & He & Hrun).
  - vm_compute. eexists. reflexivity.
  - vm_compute. eexists. reflexivity.
  - reflexivity.
  - vm_compute. reflexivity.
  - reflexivity.
  - lia.
  - vm_compute in He. injection He as <-.
    exists (Element the_close_button 0). split; [reflexivity|].
    apply Hrun. reflexivity.
Defined.

(** Shift+Tab from the first focusable element wraps to the last. *)
Example shift_tab_wraps :
  let w := (scenario_E.1, set_activeElement the_close_button scenario_E.2) in
  handleKeydown (keydown "Tab" true) w
  = Ok (preventDefault (keydown "Tab" true),
        (w.1, set_activeElement 7%nat w.2)).
Proof. vm_compute. reflexivity. Qed.

(** [event.preventDefault()] marks the event and changes nothing else of it. *)
Lemma preventDefault_marks (ev : event) :
  defaultPrevented (preventDefault ev) = true
  ∧ key (preventDefault ev) = key ev
  ∧ shiftKey (preventDefault ev) = shiftKey ev
  ∧ target (preventDefault ev) = target ev.
Proof. split_and!; reflexivity. Qed.

Lemma closeModal_closes cb (w : world) : Component (closeModal cb w).1 = None.
Proof.
  destruct w as [h p]. cbn. destruct (Component h) eqn:E; [reflexivity|exact E].
Qed.

(** On Escape only the first branch of [handleKeydown] can run. *)
Lemma handleKeydown_Escape (ev : event) (w : world) :
  key ev = "Escape" →
  handleKeydown ev w
  = Ok (if truthy (get (state w.1) "closeOnEsc")
           && bool_decide (is_Some (Component w.1))
        then (preventDefault ev, closeModal None w)
        else (ev, w)).
Proof.
  intros Hk. unfold handleKeydown. rewrite Hk.
  replace (String.eqb "Escape" "Escape") with true by reflexivity.
  rewrite andb_true_r.
  destruct (truthy (get (state w.1) "closeOnEsc") && _).
  - rewrite closeModal_closes.
    rewrite bool_decide_eq_false_2 by (intros [? ?]; discriminate).
    reflexivity.
  - rewrite Hk.
    replace (String.eqb "Escape" "Tab") with false by reflexivity.
    rewrite andb_false_r. reflexivity.
Qed.

(** C9. On an Escape key press [handleKeydown] returns, and: with a
    session shown and [closeOnEsc] enabled it prevents the default action
    and closes, the result being that of [closeModal()], with no
    component set; with [closeOnEsc] disabled, or with no session, event
    and state are left as they are.  So a shown session is closed by
    Escape exactly when [closeOnEsc] is enabled. *)
Theorem escape_closes_iff_enabled (ev : event) (w : world) :
  key ev = "Escape" →
  ∃ ev' w',
    handleKeydown ev w = Ok (ev', w')
    ∧ (is_Some (Component w.1) →
       truthy (get (state w.1) "closeOnEsc") = true →
       w' = closeModal None w ∧ Component w'.1 = None
       ∧ ev' = preventDefault ev)
    ∧ (truthy (get (state w.1) "closeOnEsc") = false → w' = w ∧ ev' = ev)
    ∧ (Component w.1 = None → w' = w ∧ ev' = ev)
    ∧ (is_Some (Component w.1) →
       Component w'.1 = None ↔ truthy (get (state w.1) "closeOnEsc") = true).
Proof.
  intros Hk. rewrite (handleKeydown_Escape ev w Hk).
  destruct (truthy (get (state w.1) "closeOnEsc")) eqn:Ht;
    destruct (Component w.1) as [c|] eqn:Hc; cbn [andb].
  - rewrite bool_decide_eq_true_2 by eauto.
    eexists _, _. split; [reflexivity|].
    pose proof (closeModal_closes None w) as Hclosed.
    split_and!; try discriminate; intros; split_and!; auto.
  - rewrite bool_decide_eq_false_2 by (intros [? ?]; discriminate).
    eexists _, _. split; [reflexivity|].
    split_and!; try discriminate; intros; split_and!; auto;
      match goal with H : is_Some None |- _ => destruct H; discriminate end.
  - eexists _, _. split; [reflexivity|].
    split_and!; try discriminate; intros; split_and!; auto; congruence.
  - eexists _, _. split; [reflexivity|].
    split_and!; try discriminate; intros; split_and!; auto;
      match goal with H : is_Some None |- _ => destruct H; discriminate end.
Qed.

Lemma escape_closes_iff_enabled_witness :
  let w := showing [Element the_close_button 0]
                   (openModal ContentX None None None fresh) in
  key (keydown "Escape" false) = "Escape"
  ∧ ∃ ev' w',
      handleKeydown (keydown "Escape" false) w = Ok (ev', w')
      ∧ Component w'.1 = None
      ∧ defaultPrevented ev' = true.
Proof.
  cbn zeta. split; [reflexivity|].
  destruct (escape_closes_iff_enabled (keydown "Escape" false)
              (showing [Element the_close_button 0]
                       (openModal ContentX None None None fresh)) eq_refl)
    as (ev' & w' & Hrun & Hon & _).
  exists ev', w'. split; [exact Hrun|].
  destruct Hon as (_ & Hclosed & Hev).
  - vm_compute. eexists. reflexivity.
  - vm_compute. reflexivity.
  - split; [exact Hclosed|]. rewrite Hev. reflexivity.
Defined.

(** Scenario B: with [closeOnEsc: false] Escape leaves the session as it
    is; on the freshly mounted host, where nothing is shown, Escape does
    nothing. *)
Example escape_disabled_keeps_session :
  let w := showing [Element the_close_button 0]
             (openModal ContentX None
                        (Some {["closeOnEsc" := VBool false]}) None fresh) in
  handleKeydown (keydown "Escape" false) w = Ok (keydown "Escape" false, w)
  ∧ is_Some (Component w.1)
  ∧ handleKeydown (keydown "Escape" false) fresh
    = Ok (keydown "Escape" false, fresh).
Proof.
  cbn zeta. split_and!; try (vm_compute; reflexivity).
  vm_compute. eexists. reflexivity.
Qed.

(** ** The style resolver *)

Lemma append_cons (x : ascii) (a b : string) :
  String x a +:+ b = String x (a +:+ b).
Proof. reflexivity. Qed.

Lemma append_empty_l (a : string) : "" +:+ a = a.
Proof. reflexivity. Qed.

Lemma append_assoc (a b c : string) : (a +:+ b) +:+ c = a +:+ b +:+ c.
Proof.
  induction a as [|x a IH]; [reflexivity|].
  rewrite !append_cons. f_equal. exact IH.
Qed.

Lemma append_empty_r (a : string) : a +:+ "" = a.
Proof.
  induction a as [|x a IH]; [reflexivity|].
  rewrite append_cons. f_equal. exact IH.
Qed.

Lemma lowered_not_upper (c : ascii) :
  is_upper (if is_upper c then ascii_of_nat (nat_of_ascii c + 32) else c)
  = false.
Proof.
  destruct c as [[] [] [] [] [] [] [] []]; vm_compute; reflexivity.
Qed.

Lemma toLowerCase_no_upper (s : string) : no_upper (toLowerCase s) = true.
Proof.
  induction s as [|c s IH]; cbn; [reflexivity|].
  rewrite lowered_not_upper, IH. reflexivity.
Qed.

Lemma toLowerCase_fixed (s : string) :
  no_upper s = true → toLowerCase s = s.
Proof.
  induction s as [|c s IH]; cbn; [reflexivity|].
  intros [Hc Hs]%andb_true_iff. apply negb_true_iff in Hc.
  rewrite Hc, (IH Hs). reflexivity.
Qed.

Lemma insert_dashes_fixed (s : string) :
  no_upper s = true → insert_dashes s = s.
Proof.
  induction s as [|c s IH]; [reflexivity|].
  intros [Hc Hs]%andb_true_iff. cbn [insert_dashes].
  destruct s as [|d s']; [reflexivity|].
  specialize (IH Hs).
  cbn [no_upper] in Hs. apply andb_true_iff in Hs as [Hd _].
  apply negb_true_iff in Hd. rewrite Hd, andb_false_r, IH. reflexivity.
Qed.

(** X1. Whatever the property name, [camelCaseToDash] returns a name
    without upper-case letters. *)
Theorem camelCaseToDash_lower_case (str : string) :
  no_upper (camelCaseToDash str) = true.
Proof. apply toLowerCase_no_upper. Qed.

(** X2. An ASCII name without upper-case letters, such as one that is
    already hyphenated, is returned as it is. *)
Theorem camelCaseToDash_keeps_lower_case (str : string) :
  all_ascii str = true → no_upper str = true → camelCaseToDash str = str.
Proof.
  intros _ H. unfold camelCaseToDash.
  rewrite (insert_dashes_fixed str H). apply toLowerCase_fixed, H.
Qed.

Lemma camelCaseToDash_keeps_lower_case_witness :
  all_ascii "background-color" = true
  ∧ no_upper "background-color" = true
  ∧ camelCaseToDash "background-color" = "background-color".
Proof.
  split; [reflexivity|]. split; [reflexivity|].
  apply (camelCaseToDash_keeps_lower_case "background-color"); reflexivity.
Defined.

(** X3. Converting a converted name changes nothing. *)
Theorem camelCaseToDash_idempotent (str : string) :
  camelCaseToDash (camelCaseToDash str) = camelCaseToDash str.
Proof.
  pose proof (toLowerCase_no_upper (insert_dashes str)) as H.
  unfold camelCaseToDash.
  rewrite (insert_dashes_fixed _ H). apply toLowerCase_fixed, H.
Qed.

Example camelCaseToDash_samples :
  camelCaseToDash "backgroundColor" = "background-color"
  ∧ camelCaseToDash "borderTopLeftRadius" = "border-top-left-radius"
  ∧ camelCaseToDash "WebkitTransition" = "webkit-transition"
  ∧ camelCaseToDash "zIndex" = "z-index"
  ∧ camelCaseToDash "" = "".
Proof. split_and!; reflexivity. Qed.

(** The declarations [toCssString] appends for a list of properties. *)
Lemma declarations_from (acc : string) (r : list (string * prim)) :
  foldl (λ str kv, str +:+ "; " +:+ camelCaseToDash kv.1 +:+ ": "
                      +:+ prim_to_string kv.2) acc r
  = acc +:+ foldl (λ str kv, str +:+ "; " +:+ camelCaseToDash kv.1 +:+ ": "
                               +:+ prim_to_string kv.2) "" r.
Proof.
  revert acc. induction r as [|[k v] r IH]; intros acc; cbn [foldl].
  - symmetry. apply append_empty_r.
  - rewrite (IH (acc +:+ _)), (IH ("" +:+ _)).
    rewrite append_empty_l, append_assoc. reflexivity.
Qed.

Lemma toCssString_cons k v (r : list (string * prim)) :
  toCssString (VRec ((k, v) :: r))
  = "; " +:+ camelCaseToDash k +:+ ": " +:+ prim_to_string v
    +:+ toCssString (VRec r).
Proof.
  unfold toCssString. cbn [truthy own_props foldl fst snd].
  rewrite declarations_from, append_empty_l, !append_assoc. reflexivity.
Qed.

(** X4. The style string of a record is the concatenation of the style
    strings of its parts: every property gives its own declaration, in the
    order of the record. *)
Theorem toCssString_app (r1 r2 : list (string * prim)) :
  toCssString (VRec (r1 ++ r2))
  = toCssString (VRec r1) +:+ toCssString (VRec r2).
Proof.
  induction r1 as [|[k v] r1 IH]; [reflexivity|].
  cbn [app]. rewrite !toCssString_cons, IH, !append_assoc. reflexivity.
Qed.

Lemma chars_from_nil i s : chars_from i s = [] → s = "".
Proof. destruct s; [reflexivity | discriminate]. Qed.

(** X5. The style string is empty exactly for a falsy value and for a
    value without properties of its own; every other value gives a string
    that begins with the separator. *)
Theorem toCssString_empty_iff (props : value) :
  (toCssString props = "" ↔ truthy props = false ∨ own_props props = [])
  ∧ (toCssString props = ""
     ∨ ∃ rest, toCssString props = String ";" (String " " rest)).
Proof.
  assert (Hrec : ∀ r, (toCssString (VRec r) = "" ↔ r = [])
                      ∧ (toCssString (VRec r) = ""
                         ∨ ∃ rest, toCssString (VRec r)
                                   = String ";" (String " " rest))).
  { intros [|[k v] r].
    - split; [split; reflexivity | left; reflexivity].
    - rewrite toCssString_cons, !append_cons, append_empty_l.
      split; [split; discriminate | right; eexists; reflexivity]. }
  destruct props as [| |b|z|s|f|r]; cbn [truthy own_props];
    try (split; [split; [auto | reflexivity] | left; reflexivity]).
  - (* booleans *)
    split; [|left; unfold toCssString; cbn; destruct b; reflexivity].
    split; [auto|]. intros _. unfold toCssString. cbn. destruct b; reflexivity.
  - (* numbers *)
    split; [|left; unfold toCssString; cbn; destruct (z =? 0); reflexivity].
    split; [auto|]. intros _. unfold toCssString. cbn.
    destruct (z =? 0); reflexivity.
  - (* strings: the characters under their indices *)
    destruct s as [|c s]; [split; [split; [auto|reflexivity] | left; reflexivity]|].
    assert (E : toCssString (VStr (String c s))
                = toCssString (VRec (chars_from 0 (String c s)))) by reflexivity.
    rewrite E. destruct (Hrec (chars_from 0 (String c s))) as [H1 H2].
    split; [|exact H2].
    rewrite H1. cbn. split; [discriminate | intros [?|?]; discriminate].
  - (* records *)
    destruct (Hrec r) as [H1 H2]. split; [|exact H2].
    rewrite H1. split; [auto | intros [?|?]; [discriminate | assumption]].
Qed.

(** ** The style of the background *)

Lemma prop_of_assign1 (t : list (string * prim)) (k k' : string) (v : prim) :
  prop_of k' (assign1 t k v)
  = if String.eqb k k' then Some v else prop_of k' t.
Proof.
  induction t as [|[k0 v0] t IH]; cbn [assign1 prop_of].
  - reflexivity.
  - destruct (String.eqb k0 k) eqn:E0; cbn [prop_of].
    + apply String.eqb_eq in E0. subst k0.
      destruct (String.eqb k k'); reflexivity.
    + rewrite IH. destruct (String.eqb k0 k') eqn:E1; [|reflexivity].
      apply String.eqb_eq in E1. subst k0.
      destruct (String.eqb k k') eqn:E2; [|reflexivity].
      apply String.eqb_eq in E2. subst k'.
      rewrite String.eqb_refl in E0. discriminate E0.
Qed.

Lemma prop_of_absent (k : string) (r : list (string * prim)) :
  k ∉ r.*1 → prop_of k r = None.
Proof.
  induction r as [|[k0 v0] r IH]; [reflexivity|].
  rewrite fmap_cons. intros [Hne Hn]%not_elem_of_cons.
  cbn [prop_of]. cbn [fst] in Hne.
  destruct (String.eqb k0 k) eqn:E; [|exact (IH Hn)].
  apply String.eqb_eq in E. congruence.
Qed.

Lemma prop_of_assigned (t r : list (string * prim)) (k : string) :
  NoDup r.*1 →
  prop_of k (foldl (λ t kv, assign1 t kv.1 kv.2) t r)
  = match prop_of k r with
    | Some v => Some v
    | None => prop_of k t
    end.
Proof.
  revert t. induction r as [|[k0 v0] r IH]; intros t Hnd; [reflexivity|].
  rewrite fmap_cons in Hnd. apply NoDup_cons in Hnd as [Hfresh Hnd].
  cbn [fst] in Hfresh. cbn [foldl fst snd prop_of]. rewrite (IH _ Hnd), prop_of_assign1.
  destruct (String.eqb k0 k) eqn:E; [|reflexivity].
  apply String.eqb_eq in E. subst k0.
  rewrite (prop_of_absent k r Hfresh). reflexivity.
Qed.

(** X6. The style record of the background holds, under every name, the
    caller's [styleBg] value when [styleBg] has that name, and otherwise
    the computed viewport width and height; a [styleBg] that is
    [undefined] or [null] leaves the width and the height alone. *)
Theorem bg_style_caller_wins (width height : Z) (r : list (string * prim))
    (k : string) :
  NoDup r.*1 →
  prop_of k (own_props (bg_style width height (VRec r)))
  = match prop_of k r with
    | Some v => Some v
    | None => prop_of k [("width", PNum width); ("height", PNum height)]
    end
  ∧ bg_style width height VUndef
    = VRec [("width", PNum width); ("height", PNum height)]
  ∧ bg_style width height VNull
    = VRec [("width", PNum width); ("height", PNum height)].
Proof.
  intros Hnd. split_and!; [|reflexivity..].
  unfold bg_style. cbn [own_props]. apply prop_of_assigned, Hnd.
Qed.

Lemma bg_style_caller_wins_witness :
  NoDup [("width", PStr "50%"); ("backgroundColor", PStr "black")].*1
  ∧ prop_of "width"
      (own_props (bg_style 1024 768
                    (VRec [("width", PStr "50%");
                           ("backgroundColor", PStr "black")])))
    = Some (PStr "50%")
  ∧ prop_of "height"
      (own_props (bg_style 1024 768
                    (VRec [("width", PStr "50%");
                           ("backgroundColor", PStr "black")])))
    = Some (PNum 768).
Proof.
  assert (Hnd : NoDup [("width", PStr "50%");
                       ("backgroundColor", PStr "black")].*1).
  { cbn. apply NoDup_cons. split; [|apply NoDup_singleton].
    intros H%list_elem_of_singleton. discriminate H. }
  split; [exact Hnd|]. split.
  - apply (bg_style_caller_wins 1024 768 _ "width" Hnd).
  - apply (bg_style_caller_wins 1024 768 _ "height" Hnd).
Defined.

Example cssBg_sample :
  cssBg (css (openModal ContentX None
                (Some {["styleBg" := VRec [("backgroundColor", PStr "black")]]})
                None fresh).1)
  = Some "; width: 1024; height: 768; background-color: black".
Proof. vm_compute. reflexivity. Qed.

(** ** Closing, and rounds of opening and closing *)

(** X7. A second [closeModal] after a first changes nothing, whatever the
    callbacks given to either: the scroll position is not written again
    and the handlers of the first close stay. *)
Theorem closeModal_twice (cb cb' : option obj) (w : world) :
  closeModal cb' (closeModal cb w) = closeModal cb w.
Proof.
  pose proof (closeModal_closes cb w) as H.
  destruct (closeModal cb w) as [h p]. cbn in H |- *. rewrite H. reflexivity.
Qed.

Lemma open_close_page C props o cb cb' (w : world) :
  (closeModal cb' (openModal C props o cb w)).2
  = Page (BodyStyle (style_position (body w.2)) ""
                    (style_overflow (body w.2)) (style_width (body w.2)))
         0 (win_scrollY w.2) (innerWidth w.2) (innerHeight w.2)
         (dialog_nodes w.2) (activeElement w.2) (unfocusable w.2).
Proof.
  destruct w as [h p]. cbn -[or_empty]. rewrite !or_empty_Some. reflexivity.
Qed.

(** X8. After any number of rounds of [openModal] and [closeModal] the
    body has the inline position, overflow and width, and the window the
    vertical offset, that they had before the first round, and no session
    is left when at least one round ran. *)
Theorem open_close_rounds_restore (n : nat) (C : component) (w : world) :
  let w' := open_close_rounds n C w in
  style_position (body w'.2) = style_position (body w.2)
  ∧ style_overflow (body w'.2) = style_overflow (body w.2)
  ∧ style_width (body w'.2) = style_width (body w.2)
  ∧ win_scrollY w'.2 = win_scrollY w.2
  ∧ (n ≠ 0%nat → Component w'.1 = None ∧ style_top (body w'.2) = "").
Proof.
  cbn zeta. revert w. induction n as [|n IH]; intros w.
  - split_and!; try reflexivity. intros []; reflexivity.
  - cbn [open_close_rounds].
    destruct (IH (closeModal None (openModal C None None None w)))
      as (H1 & H2 & H3 & H4 & H5).
    rewrite H1, H2, H3, H4, !open_close_page. cbn.
    split_and!; try reflexivity. intros _.
    destruct n as [|n]; [|apply H5; discriminate].
    cbn [open_close_rounds]. split; [apply closeModal_closes|].
    rewrite open_close_page. reflexivity.
Qed.

(** ** The cases of [handleKeydown] *)

Lemma not_is_Some_None {A} : ¬ is_Some (@None A).
Proof. intros [? ?]; discriminate. Qed.

(** With something focusable below the window, Tab and Shift+Tab call
    [focus()] on the element the index computation of lines 338-342
    arrives at. *)
Lemma handleKeydown_Tab (ev : event) (w : world) :
  is_Some (Component w.1) →
  is_Some (modalWindow (elements w.1)) →
  key ev = "Tab" →
  truthy (get (state w.1) "disableFocusTrap") = false →
  let tabbable := tabbable_of (dialog_nodes w.2) in
  let n := Z.of_nat (length tabbable) in
  let found := indexOf tabbable (activeElement w.2) in
  let start := if (found =? -1) && shiftKey ev then 0 else found in
  let index := (start + (if shiftKey ev then -1 else 1)) `mod` n in
  0 < n →
  0 ≤ index < n
  ∧ ∃ e, tabbable !! Z.to_nat index = Some e
         ∧ handleKeydown ev w
           = Ok (preventDefault ev,
                 (w.1, if takes_focus w.2 (el_node e)
                       then set_activeElement (el_node e) w.2
                       else w.2)).
Proof.
  intros Hc [mw Hm] Hk Ht tabbable n found start index Hn.
  pose proof (indexOf_lower tabbable (activeElement w.2)) as Hlo.
  fold found in Hlo.
  set (d := if shiftKey ev then -1 else 1) in *.
  assert (Hsum : 0 ≤ start + (n + d)).
  { assert (Hstart : start = 0 ∧ d = -1 ∨ start = found ∧ (d = 1 ∨ 0 ≤ found)).
    { unfold start, d. destruct (Z.eqb_spec found (-1)); destruct (shiftKey ev);
        cbn [andb]; lia. }
    assert (Hd : d = -1 ∨ d = 1) by (unfold d; destruct (shiftKey ev); lia).
    lia. }
  assert (Hrem : Z.rem (start + (n + d)) n = index).
  { rewrite Z.rem_mod_nonneg by lia. unfold index.
    replace (start + (n + d)) with (start + d + 1 * n) by lia.
    apply Z_mod_plus_full. }
  pose proof (Z.mod_pos_bound (start + d) n Hn) as Hb. fold index in Hb.
  split; [exact Hb|].
  destruct (lookup_lt_is_Some_2 tabbable (Z.to_nat index)) as [e He];
    [unfold n in *; lia|].
  exists e. split; [exact He|].
  unfold handleKeydown.
  rewrite (not_Escape ev Hk), andb_false_r.
  rewrite (bool_decide_eq_true_2 _ Hc), Hk, Ht, Hm.
  replace (String.eqb "Tab" "Tab") with true by reflexivity.
  cbn [andb negb]. fold tabbable. fold found. fold start.
  cbn [plus]. fold n. fold d. unfold remainder.
  replace (n =? 0) with false by (symmetry; apply Z.eqb_neq; lia).
  rewrite Hrem. unfold at_index.
  replace (0 <=? index) with true by (symmetry; apply Z.leb_le; lia).
  rewrite He. reflexivity.
Qed.

Lemma tabbable_length_pos (l : list element) : l ≠ [] → 0 < Z.of_nat (length l).
Proof. destruct l; [congruence | cbn; lia]. Qed.

(** Without a session, for a key other than Escape and Tab, and for Tab
    with the focus trap disabled, nothing is done. *)
Lemma handleKeydown_ignored (ev : event) (w : world) :
  Component w.1 = None
  ∨ (key ev ≠ "Escape"
     ∧ (key ev ≠ "Tab" ∨ truthy (get (state w.1) "disableFocusTrap") = true)) →
  handleKeydown ev w = Ok (ev, w).
Proof.
  intros H. unfold handleKeydown.
  destruct H as [Hc | [He Ht]].
  - rewrite Hc. rewrite (bool_decide_eq_false_2 _ not_is_Some_None).
    rewrite andb_false_r. cbn [andb]. rewrite Hc.
    rewrite (bool_decide_eq_false_2 _ not_is_Some_None). reflexivity.
  - apply String.eqb_neq in He. rewrite He, andb_false_r.
    destruct Ht as [Ht | Ht].
    + apply String.eqb_neq in Ht. rewrite Ht, andb_false_r. reflexivity.
    + rewrite Ht. cbn [negb]. rewrite andb_false_r. reflexivity.
Qed.

(** Every run of [handleKeydown] is one of five: it closes, it does
    nothing, it moves the focus, it prevents the default action without
    moving the focus, or it throws. *)
Lemma handleKeydown_cases (ev : event) (w : world) :
  handleKeydown ev w = Ok (preventDefault ev, closeModal None w)
  ∨ handleKeydown ev w = Ok (ev, w)
  ∨ (∃ a, handleKeydown ev w
          = Ok (preventDefault ev, (w.1, set_activeElement a w.2)))
  ∨ handleKeydown ev w = Ok (preventDefault ev, w)
  ∨ (handleKeydown ev w = Throw TypeError ∧ key ev = "Tab").
Proof.
  destruct (Component w.1) as [c|] eqn:Hc;
    [|right; left; apply handleKeydown_ignored; left; exact Hc].
  assert (Hs : is_Some (Component w.1)) by (rewrite Hc; eauto).
  destruct (String.eqb (key ev) "Escape") eqn:Ee.
  - apply String.eqb_eq in Ee. rewrite (handleKeydown_Escape ev w Ee).
    rewrite (bool_decide_eq_true_2 _ Hs), andb_true_r.
    destruct (truthy _); [left | right; left]; reflexivity.
  - apply String.eqb_neq in Ee.
    destruct (String.eqb (key ev) "Tab") eqn:Et;
      [|right; left; apply handleKeydown_ignored; right; split;
        [exact Ee | left; apply String.eqb_neq, Et]].
    apply String.eqb_eq in Et.
    destruct (truthy (get (state w.1) "disableFocusTrap")) eqn:Hd;
      [right; left; apply handleKeydown_ignored; right; split;
       [exact Ee | right; exact Hd]|].
    destruct (tabbable_of (dialog_nodes w.2)) as [|e0 l] eqn:Hl;
      [right; right; right; right; split;
       [apply tab_on_empty_set_throws; assumption | exact Et]|].
    destruct (modalWindow (elements w.1)) as [mw|] eqn:Hm.
    + right; right.
      destruct (handleKeydown_Tab ev w Hs ltac:(rewrite Hm; eauto) Et Hd)
        as (_ & e & _ & Hrun).
      { rewrite Hl. cbn. lia. }
      rewrite Hrun. destruct (takes_focus w.2 (el_node e));
        [left; exists (el_node e); reflexivity | right; left].
      destruct w; reflexivity.
    + right; right; right; right. split; [|exact Et].
      unfold handleKeydown. apply String.eqb_neq in Ee.
      rewrite Ee, andb_false_r, (bool_decide_eq_true_2 _ Hs), Et, Hd, Hm.
      reflexivity.
Qed.

(** ** The focus trap *)

Lemma tabbable_of_spec (nodes : list element) (e : element) :
  e ∈ tabbable_of nodes ↔ e ∈ nodes ∧ 0 ≤ tabIndex e.
Proof.
  unfold tabbable_of. rewrite !list_elem_of_In, filter_In, Z.leb_le.
  reflexivity.
Qed.

(** X9. With a session shown, the dialog window bound, the focus trap on
    and something focusable below the window, Tab and Shift+Tab never
    throw: they prevent the default action and call [focus()] on an
    element of the dialog whose tab index is not negative, wherever the
    focus was.  The focus moves to that element when it can take the
    focus and stays where it was when it cannot; nothing else changes. *)
Theorem tab_focuses_dialog_element (ev : event) (w : world) :
  is_Some (Component w.1) →
  is_Some (modalWindow (elements w.1)) →
  key ev = "Tab" →
  truthy (get (state w.1) "disableFocusTrap") = false →
  tabbable_of (dialog_nodes w.2) ≠ [] →
  ∃ e, e ∈ dialog_nodes w.2 ∧ 0 ≤ tabIndex e
       ∧ handleKeydown ev w
         = Ok (preventDefault ev,
               (w.1, if takes_focus w.2 (el_node e)
                     then set_activeElement (el_node e) w.2
                     else w.2)).
Proof.
  intros Hc Hm Hk Ht Hne.
  destruct (handleKeydown_Tab ev w Hc Hm Hk Ht (tabbable_length_pos _ Hne))
    as (_ & e & He & Hrun).
  exists e. apply list_elem_of_lookup_2, tabbable_of_spec in He as [Hin Hidx].
  split_and!; assumption.
Qed.

Lemma tab_focuses_dialog_element_witness :
  (∃ e, e ∈ dialog_nodes scenario_E.2 ∧ 0 ≤ tabIndex e
        ∧ handleKeydown (keydown "Tab" true) scenario_E
          = Ok (preventDefault (keydown "Tab" true),
                (scenario_E.1, set_activeElement (el_node e) scenario_E.2)))
  ∧ handleKeydown (keydown "Tab" false) disabled_next
    = Ok (preventDefault (keydown "Tab" false), disabled_next).
Proof.
  split.
  - destruct (tab_focuses_dialog_element (keydown "Tab" true) scenario_E)
      as (e & Hin & Hidx & Hrun).
    + vm_compute. eexists. reflexivity.
    + vm_compute. eexists. reflexivity.
    + reflexivity.
    + vm_compute. reflexivity.
    + vm_compute. discriminate.
    + exists e. split_and!; [exact Hin | exact Hidx |].
      rewrite Hrun. reflexivity.
  - destruct (tab_focuses_dialog_element (keydown "Tab" false) disabled_next)
      as (e & Hin & Hidx & Hrun).
    + vm_compute. eexists. reflexivity.
    + vm_compute. eexists. reflexivity.
    + reflexivity.
    + vm_compute. reflexivity.
    + vm_compute. discriminate.
    + vm_compute. reflexivity.
Defined.

(** X10. When the focused element is not one of the focusable elements
    of the dialog, Tab calls [focus()] on the first of them and Shift+Tab
    on the last, and the default action is prevented: the focus moves to
    that element when it can take the focus, and stays where it was when
    it cannot. *)
Theorem focus_enters_dialog (ev : event) (w : world) :
  is_Some (Component w.1) →
  is_Some (modalWindow (elements w.1)) →
  key ev = "Tab" →
  truthy (get (state w.1) "disableFocusTrap") = false →
  let tabbable := tabbable_of (dialog_nodes w.2) in
  indexOf tabbable (activeElement w.2) = -1 →
  tabbable ≠ [] →
  ∃ e, (if shiftKey ev then last tabbable else head tabbable) = Some e
       ∧ handleKeydown ev w
         = Ok (preventDefault ev,
               (w.1, if takes_focus w.2 (el_node e)
                     then set_activeElement (el_node e) w.2
                     else w.2)).
Proof.
  intros Hc Hm Hk Ht tabbable Hout Hne.
  pose proof (tabbable_length_pos _ Hne) as Hn.
  destruct (handleKeydown_Tab ev w Hc Hm Hk Ht Hn) as (_ & e & He & Hrun).
  fold tabbable in He, Hn. rewrite Hout in He.
  exists e. split; [|exact Hrun].
  replace (-1 =? -1) with true in He by reflexivity.
  destruct (shiftKey ev); cbn [andb] in He.
  - rewrite last_lookup. rewrite <- He. f_equal.
    replace (0 + -1) with (-1) by lia.
    assert (E : (-1) `mod` Z.of_nat (length tabbable)
                = Z.of_nat (length tabbable) - 1).
    { symmetry. apply (Z.mod_unique_pos _ _ (-1)); lia. }
    rewrite E. lia.
  - rewrite head_lookup. rewrite <- He. reflexivity.
Qed.

Lemma focus_enters_dialog_witness :
  let w := showing [Element the_close_button 0; Element the_content (-1);
                    Element 6%nat 0]
                   (openModal ContentX None None None fresh) in
  indexOf (tabbable_of (dialog_nodes w.2)) (activeElement w.2) = -1
  ∧ ∃ e, el_node e = 6%nat
         ∧ handleKeydown (keydown "Tab" true) w
           = Ok (preventDefault (keydown "Tab" true),
                 (w.1, set_activeElement (el_node e) w.2)).
Proof.
  cbn zeta. split; [reflexivity|].
  destruct (focus_enters_dialog (keydown "Tab" true)
              (showing [Element the_close_button 0; Element the_content (-1);
                        Element 6%nat 0]
                       (openModal ContentX None None None fresh)))
    as (e & He & Hrun).
  - vm_compute. eexists. reflexivity.
  - vm_compute. eexists. reflexivity.
  - reflexivity.
  - vm_compute. reflexivity.
  - reflexivity.
  - vm_compute. discriminate.
  - exists e. split; [vm_compute in He; injection He as <-; reflexivity|].
    rewrite Hrun. reflexivity.
Defined.

Lemma indexOf_NoDup (l : list element) (k : nat) (e : element) :
  NoDup (el_node <$> l) → l !! k = Some e → indexOf l (el_node e) = Z.of_nat k.
Proof.
  revert k. induction l as [|e0 l IH]; intros k Hnd Hk; [discriminate Hk|].
  rewrite fmap_cons in Hnd. apply NoDup_cons in Hnd as [Hfresh Hnd].
  cbn [indexOf]. destruct k as [|k]; cbn in Hk.
  - injection Hk as ->. rewrite Nat.eqb_refl. reflexivity.
  - destruct (Nat.eqb (el_node e0) (el_node e)) eqn:E.
    + apply Nat.eqb_eq in E. exfalso. apply Hfresh. rewrite E.
      apply list_elem_of_fmap. exists e. split; [reflexivity|].
      eapply list_elem_of_lookup_2, Hk.
    + rewrite (IH k Hnd Hk).
      replace (Z.of_nat k =? -1) with false by (symmetry; apply Z.eqb_neq; lia).
      lia.
Qed.

Lemma set_activeElement_twice (a : node) (p : page) :
  set_activeElement (activeElement p) (set_activeElement a p) = p.
Proof. destruct p. reflexivity. Qed.

(** X11. With distinct elements in the focusable set, all of which can
    take the focus, and the focus on one of them, a Tab followed by a
    Shift+Tab, or a Shift+Tab followed by a Tab, brings the focus back:
    the second key restores the state the first one found. *)
Theorem tab_then_back (ev ev' : event) (w : world) :
  is_Some (Component w.1) →
  is_Some (modalWindow (elements w.1)) →
  key ev = "Tab" → key ev' = "Tab" →
  shiftKey ev' = negb (shiftKey ev) →
  truthy (get (state w.1) "disableFocusTrap") = false →
  NoDup (el_node <$> tabbable_of (dialog_nodes w.2)) →
  (∀ e, e ∈ tabbable_of (dialog_nodes w.2) →
        takes_focus w.2 (el_node e) = true) →
  0 ≤ indexOf (tabbable_of (dialog_nodes w.2)) (activeElement w.2) →
  ∃ w1, handleKeydown ev w = Ok (preventDefault ev, w1)
        ∧ activeElement w1.2 ∈ el_node <$> tabbable_of (dialog_nodes w.2)
        ∧ handleKeydown ev' w1 = Ok (preventDefault ev', w).
Proof.
  intros Hc Hm Hk Hk' Hshift Ht Hnd Hall Hpos.
  set (tabbable := tabbable_of (dialog_nodes w.2)) in *.
  set (n := Z.of_nat (length tabbable)).
  set (i := indexOf tabbable (activeElement w.2)) in *.
  pose proof (indexOf_upper tabbable (activeElement w.2)) as Hup.
  fold i in Hup. fold n in Hup.
  assert (Hn : 0 < n) by lia.
  destruct (indexOf_lookup tabbable (activeElement w.2) i eq_refl Hpos)
    as (e0 & He0 & Hid0).
  set (d := if shiftKey ev then -1 else 1).
  assert (Hd : d = -1 ∨ d = 1) by (unfold d; destruct (shiftKey ev); lia).
  (* the first key *)
  destruct (handleKeydown_Tab ev w Hc Hm Hk Ht Hn) as (Hb1 & e1 & He1 & Hrun1).
  fold tabbable in He1, Hb1. fold i in He1, Hb1. fold n in He1, Hb1.
  replace (i =? -1) with false in He1, Hb1
    by (symmetry; apply Z.eqb_neq; lia).
  cbn [andb] in He1, Hb1. fold d in He1, Hb1.
  rewrite (Hall e1 (list_elem_of_lookup_2 _ _ _ He1)) in Hrun1.
  exists (w.1, set_activeElement (el_node e1) w.2).
  split; [exact Hrun1|]. split.
  { destruct w as [h p]. destruct p. cbn.
    apply list_elem_of_fmap. exists e1. split; [reflexivity|].
    eapply list_elem_of_lookup_2, He1. }
  (* the second key *)
  set (w1 := (w.1, set_activeElement (el_node e1) w.2)).
  assert (Hnodes : tabbable_of (dialog_nodes w1.2) = tabbable)
    by (destruct w as [h p]; destruct p; reflexivity).
  assert (Hact : activeElement w1.2 = el_node e1)
    by (destruct w as [h p]; destruct p; reflexivity).
  assert (Hsame : ∀ x, takes_focus w1.2 x = takes_focus w.2 x)
    by (intros x; destruct w as [h p]; destruct p; reflexivity).
  destruct (handleKeydown_Tab ev' w1 Hc Hm Hk' Ht) as (_ & e2 & He2 & Hrun2).
  { rewrite Hnodes. exact Hn. }
  rewrite Hnodes, Hact in He2.
  rewrite (indexOf_NoDup tabbable _ e1 Hnd He1) in He2.
  rewrite Z2Nat.id in He2 by lia. fold n in He2.
  replace ((i + d) `mod` n =? -1) with false in He2
    by (symmetry; apply Z.eqb_neq; lia).
  cbn [andb] in He2.
  replace (if shiftKey ev' then -1 else 1) with (- d) in He2
    by (unfold d; rewrite Hshift; destruct (shiftKey ev); reflexivity).
  assert (Hback : ((i + d) `mod` n + - d) `mod` n = i).
  { rewrite Zplus_mod_idemp_l. replace (i + d + - d) with i by lia.
    apply Z.mod_small. lia. }
  rewrite Hback, He0 in He2. injection He2 as <-.
  rewrite Hrun2, Hsame, (Hall e0 (list_elem_of_lookup_2 _ _ _ He0)).
  unfold w1. cbn [fst snd]. rewrite Hid0.
  rewrite set_activeElement_twice. destruct w. reflexivity.
Qed.

Lemma tab_then_back_witness :
  NoDup (el_node <$> tabbable_of (dialog_nodes scenario_E.2))
  ∧ ∃ w1, handleKeydown (keydown "Tab" false) scenario_E
          = Ok (preventDefault (keydown "Tab" false), w1)
          ∧ handleKeydown (keydown "Tab" true) w1
            = Ok (preventDefault (keydown "Tab" true), scenario_E).
Proof.
  assert (Hnd : NoDup (el_node <$> tabbable_of (dialog_nodes scenario_E.2))).
  { change (NoDup [5%nat; 6%nat; 7%nat]). repeat (constructor;
              [rewrite ?not_elem_of_cons; repeat split;
               first [discriminate | apply not_elem_of_nil]|]).
    constructor. }
  split; [exact Hnd|].
  destruct (tab_then_back (keydown "Tab" false) (keydown "Tab" true) scenario_E)
    as (w1 & H1 & _ & H2).
  - vm_compute. eexists. reflexivity.
  - vm_compute. eexists. reflexivity.
  - reflexivity.
  - reflexivity.
  - reflexivity.
  - vm_compute. reflexivity.
  - exact Hnd.
  - intros e _. reflexivity.
  - vm_compute. discriminate.
  - exists w1. split; assumption.
Defined.

(** X12. [handleKeydown] does nothing at all, neither to the event nor to
    the state, when no session is shown, and also for a key other than
    Escape when that key is not Tab or the focus trap is disabled. *)
Theorem handleKeydown_passes (ev : event) (w : world) :
  Component w.1 = None
  ∨ (key ev ≠ "Escape"
     ∧ (key ev ≠ "Tab" ∨ truthy (get (state w.1) "disableFocusTrap") = true)) →
  handleKeydown ev w = Ok (ev, w).
Proof. apply handleKeydown_ignored. Qed.

Lemma handleKeydown_passes_witness :
  handleKeydown (keydown "Tab" false) fresh = Ok (keydown "Tab" false, fresh)
  ∧ handleKeydown (keydown "a" false) scenario_E
    = Ok (keydown "a" false, scenario_E).
Proof.
  split.
  - apply (handleKeydown_passes (keydown "Tab" false) fresh).
    left. reflexivity.
  - apply (handleKeydown_passes (keydown "a" false) scenario_E).
    right. split; [discriminate | left; discriminate].
Defined.

(** When [handleKeydown] throws. *)
Lemma handleKeydown_error (ev : event) (w : world) (e : error) :
  handleKeydown ev w = Throw e
  ↔ is_Some (Component w.1)
    ∧ key ev = "Tab"
    ∧ truthy (get (state w.1) "disableFocusTrap") = false
    ∧ (modalWindow (elements w.1) = None
       ∨ tabbable_of (dialog_nodes w.2) = []).
Proof.
  destruct e. split.
  - intros Hthrow.
    destruct (Component w.1) as [c|] eqn:Hc;
      [|rewrite handleKeydown_ignored in Hthrow by (left; exact Hc);
        discriminate Hthrow].
    assert (Hs : is_Some (Component w.1)) by (rewrite Hc; eauto).
    rewrite <- Hc. split; [exact Hs|].
    destruct (handleKeydown_cases ev w) as [H|[H|[[a H]|[H|[_ Hk]]]]];
      try (rewrite H in Hthrow; discriminate Hthrow).
    split; [exact Hk|].
    destruct (truthy (get (state w.1) "disableFocusTrap")) eqn:Hd.
    { rewrite handleKeydown_ignored in Hthrow; [discriminate Hthrow|].
      right. split; [rewrite Hk; discriminate | right; exact Hd]. }
    split; [reflexivity|].
    destruct (modalWindow (elements w.1)) as [mw|] eqn:Hm; [|left; reflexivity].
    right. destruct (tabbable_of (dialog_nodes w.2)) as [|e0 l] eqn:Hl;
      [reflexivity|].
    destruct (handleKeydown_Tab ev w Hs ltac:(rewrite Hm; eauto) Hk Hd)
      as (_ & e & _ & Hrun).
    { rewrite Hl. cbn. lia. }
    rewrite Hrun in Hthrow. discriminate Hthrow.
  - intros (Hs & Hk & Hd & [Hm | Hl]).
    + unfold handleKeydown.
      rewrite (not_Escape ev Hk), andb_false_r.
      rewrite (bool_decide_eq_true_2 _ Hs), Hk, Hd, Hm. reflexivity.
    + apply tab_on_empty_set_throws; assumption.
Qed.

(** X13. [handleKeydown] throws in these cases and no others: a session
    is shown, the key is Tab, the focus trap is on, and the dialog window
    is not bound yet or has nothing focusable below it. *)
Theorem handleKeydown_throws_iff (ev : event) (w : world) (e : error) :
  handleKeydown ev w = Throw e
  ↔ is_Some (Component w.1)
    ∧ key ev = "Tab"
    ∧ truthy (get (state w.1) "disableFocusTrap") = false
    ∧ (modalWindow (elements w.1) = None
       ∨ tabbable_of (dialog_nodes w.2) = []).
Proof. apply handleKeydown_error. Qed.

(** ** Presses and releases of the mouse *)

(** X14. A press on the background or on the wrapper followed by a
    release on another element does not close: the event is not
    prevented, and nothing changes but the remembered target. *)
Theorem release_elsewhere_keeps_session (down up : event) (w : world) :
  truthy (get (state w.1) "closeOnOuterClick") = true →
  Some (target down) = background (elements w.1)
  ∨ Some (target down) = wrap (elements w.1) →
  target up ≠ target down →
  handleOuterMouseup up (handleOuterMousedown down w)
  = (up, (set_outerClickTarget (Some (target down)) w.1, w.2)).
Proof.
  intros Hon Hdown Hup. unfold handleOuterMousedown. rewrite Hon.
  assert (Hd : bool_decide (Some (target down) = background (elements w.1))
               || bool_decide (Some (target down) = wrap (elements w.1)) = true).
  { destruct Hdown as [H|H]; rewrite (bool_decide_eq_true_2 _ H);
      [reflexivity | apply orb_true_r]. }
  rewrite Hd. cbn [andb]. unfold handleOuterMouseup.
  destruct w as [h p]. cbn [fst snd] in *. cbn [state set_outerClickTarget outerClickTarget].
  rewrite Hon. rewrite bool_decide_eq_false_2 by congruence. reflexivity.
Qed.

Lemma release_elsewhere_keeps_session_witness :
  let w := showing [Element the_close_button 0]
                   (openModal ContentX None None None fresh) in
  let r := handleOuterMouseup (mouse the_content)
             (handleOuterMousedown (mouse the_background) w) in
  is_Some (Component r.2.1) ∧ defaultPrevented r.1 = false ∧ r.2.2 = w.2.
Proof.
  cbn zeta.
  rewrite (release_elsewhere_keeps_session (mouse the_background)
             (mouse the_content)).
  - split_and!; [vm_compute; eexists|..]; reflexivity.
  - vm_compute. reflexivity.
  - left. vm_compute. reflexivity.
  - discriminate.
Defined.

(** X15. A press on the background or on the wrapper followed by a
    release on the same element closes the session that is shown: the
    default action is prevented and the state is the one [closeModal()]
    leaves. *)
Theorem click_outside_closes (down up : event) (w : world) :
  truthy (get (state w.1) "closeOnOuterClick") = true →
  Some (target down) = background (elements w.1)
  ∨ Some (target down) = wrap (elements w.1) →
  target up = target down →
  let r := handleOuterMouseup up (handleOuterMousedown down w) in
  r = (preventDefault up,
       closeModal None (set_outerClickTarget (Some (target down)) w.1, w.2))
  ∧ Component r.2.1 = None.
Proof.
  intros Hon Hdown Hup. cbn zeta. unfold handleOuterMousedown. rewrite Hon.
  assert (Hd : bool_decide (Some (target down) = background (elements w.1))
               || bool_decide (Some (target down) = wrap (elements w.1)) = true).
  { destruct Hdown as [H|H]; rewrite (bool_decide_eq_true_2 _ H);
      [reflexivity | apply orb_true_r]. }
  rewrite Hd. cbn [andb]. unfold handleOuterMouseup.
  assert (E : truthy (get (state (set_outerClickTarget (Some (target down)) w.1,
                                  w.2).1) "closeOnOuterClick")
              && bool_decide (Some (target up)
                              = outerClickTarget
                                  (set_outerClickTarget (Some (target down)) w.1,
                                   w.2).1) = true).
  { destruct w as [h p]. cbn [fst snd state set_outerClickTarget outerClickTarget] in *.
    rewrite Hon, Hup. rewrite bool_decide_eq_true_2 by reflexivity. reflexivity. }
  rewrite E. split; [reflexivity|]. apply closeModal_closes.
Qed.

Lemma click_outside_closes_witness :
  let w := showing [Element the_close_button 0]
                   (openModal ContentX None None None fresh) in
  let r := handleOuterMouseup (mouse the_wrap)
             (handleOuterMousedown (mouse the_wrap) w) in
  is_Some (Component w.1) ∧ Component r.2.1 = None.
Proof.
  cbn zeta. split; [vm_compute; eexists; reflexivity|].
  apply (click_outside_closes (mouse the_wrap) (mouse the_wrap)
           (showing [Element the_close_button 0]
                    (openModal ContentX None None None fresh))).
  - vm_compute. reflexivity.
  - right. vm_compute. reflexivity.
  - reflexivity.
Defined.

(** X16. With no target remembered, a press on any other element than
    the background and the wrapper, such as the window or the content,
    followed by a release anywhere, changes nothing. *)
Theorem press_inside_keeps_session (down up : event) (w : world) :
  outerClickTarget w.1 = None →
  Some (target down) ≠ background (elements w.1) →
  Some (target down) ≠ wrap (elements w.1) →
  handleOuterMouseup up (handleOuterMousedown down w) = (up, w).
Proof.
  intros Hnone Hb Hw.
  rewrite (handleOuterMousedown_elsewhere down w Hb Hw).
  unfold handleOuterMouseup. rewrite Hnone.
  rewrite bool_decide_eq_false_2 by discriminate.
  rewrite andb_false_r. reflexivity.
Qed.

Lemma press_inside_keeps_session_witness :
  let w := showing [Element the_close_button 0]
                   (openModal ContentX None None None fresh) in
  handleOuterMouseup (mouse the_background)
    (handleOuterMousedown (mouse the_content) w)
  = (mouse the_background, w).
Proof.
  cbn zeta. apply press_inside_keeps_session.
  - reflexivity.
  - vm_compute. discriminate.
  - vm_compute. discriminate.
Defined.

Lemma mouse_step_disabled (o : op) (w : world) :
  truthy (get (state w.1) "closeOnOuterClick") = false →
  is_mouse o = true → step o w = w.
Proof.
  intros Hoff Hm. destruct o; try discriminate Hm; cbn [step].
  - unfold handleOuterMousedown. rewrite Hoff. reflexivity.
  - unfold handleOuterMouseup. rewrite Hoff. reflexivity.
Qed.

(** X17. With [closeOnOuterClick] off, no sequence of presses and
    releases, on whatever elements, closes the session or changes
    anything. *)
Theorem outer_click_disabled (ops : list op) (w : world) :
  truthy (get (state w.1) "closeOnOuterClick") = false →
  forallb is_mouse ops = true →
  run ops w = w.
Proof.
  intros Hoff. induction ops as [|o ops IH]; intros Hall; [reflexivity|].
  cbn [forallb] in Hall. apply andb_true_iff in Hall as [Ho Hall].
  unfold run. cbn [foldl]. rewrite (mouse_step_disabled o w Hoff Ho).
  apply IH, Hall.
Qed.

Lemma outer_click_disabled_witness :
  let w := showing [Element the_close_button 0]
             (openModal ContentX None
                (Some {["closeOnOuterClick" := VBool false]}) None fresh) in
  run [Mousedown (mouse the_background); Mouseup (mouse the_background)] w = w.
Proof.
  cbn zeta. apply outer_click_disabled.
  - vm_compute. reflexivity.
  - reflexivity.
Defined.

(** ** Runs of operations *)

(** A key other than Escape leaves the host's variables alone; at most
    the focus moves. *)
Lemma handleKeydown_other (ev : event) (w : world) :
  key ev ≠ "Escape" →
  handleKeydown ev w = Ok (ev, w)
  ∨ (∃ a, handleKeydown ev w
          = Ok (preventDefault ev, (w.1, set_activeElement a w.2)))
  ∨ handleKeydown ev w = Ok (preventDefault ev, w)
  ∨ handleKeydown ev w = Throw TypeError.
Proof.
  intros He.
  destruct (Component w.1) as [c|] eqn:Hc;
    [|left; apply handleKeydown_ignored; left; exact Hc].
  assert (Hs : is_Some (Component w.1)) by (rewrite Hc; eauto).
  destruct (String.eqb (key ev) "Tab") eqn:Et;
    [|left; apply handleKeydown_ignored; right; split;
      [exact He | left; apply String.eqb_neq, Et]].
  apply String.eqb_eq in Et.
  destruct (truthy (get (state w.1) "disableFocusTrap")) eqn:Hd;
    [left; apply handleKeydown_ignored; right; split;
     [exact He | right; exact Hd]|].
  right.
  destruct (handleKeydown ev w) as [[ev' w']|[]] eqn:Hrun;
    [|right; right; reflexivity].
  assert (Hok : ∀ e, handleKeydown ev w ≠ Throw e) by (rewrite Hrun; discriminate).
  assert (Hm : is_Some (modalWindow (elements w.1))).
  { destruct (modalWindow (elements w.1)) eqn:Hm; [eauto|].
    exfalso. apply (Hok TypeError), handleKeydown_error.
    split_and!; auto. }
  assert (Hne : tabbable_of (dialog_nodes w.2) ≠ []).
  { intros Hl. apply (Hok TypeError), handleKeydown_error.
    split_and!; auto. }
  destruct (handleKeydown_Tab ev w Hs Hm Et Hd (tabbable_length_pos _ Hne))
    as (_ & e & _ & Hrun').
  rewrite <- Hrun, Hrun'. destruct (takes_focus w.2 (el_node e));
    [left; exists (el_node e); reflexivity | right; left].
  destruct w; reflexivity.
Qed.

Lemma closeModal_frame cb (w : world) :
  defaultState (closeModal cb w).1 = defaultState w.1
  ∧ state (closeModal cb w).1 = state w.1
  ∧ elements (closeModal cb w).1 = elements w.1
  ∧ lock (closeModal cb w).1 = lock w.1
  ∧ loading (closeModal cb w).1 = loading w.1
  ∧ outerClickTarget (closeModal cb w).1 = outerClickTarget w.1.
Proof.
  destruct w as [h p]. cbn. destruct (Component h); split_and!; reflexivity.
Qed.

Lemma closeModal_page cb (w : world) :
  is_Some (Component w.1) →
  (closeModal cb w).2
  = scrollTo 0 (scrollY (lock w.1))
      (set_body (BodyStyle (or_empty (prevBodyPosition (lock w.1))) ""
                           (or_empty (prevBodyOverflow (lock w.1)))
                           (or_empty (prevBodyWidth (lock w.1))))
                w.2).
Proof.
  destruct w as [h p]. cbn [fst snd]. intros [c Hc].
  unfold closeModal. rewrite Hc. reflexivity.
Qed.

Lemma step_within_session (o : op) (w : world) :
  within_session o = true →
  lock (step o w).1 = lock w.1
  ∧ body (step o w).2 = body w.2
  ∧ (is_Some (Component w.1) → is_Some (Component (step o w).1)).
Proof.
  intros Hin. destruct o; try discriminate Hin; cbn [step].
  - (* changeModalContent *)
    destruct w as [h p]. split_and!; [reflexivity..|]. intros _. cbn. eauto.
  - (* isLoading *)
    destruct w as [h p]. split_and!; [reflexivity..|]. intros H. exact H.
  - (* a key other than Escape *)
    cbn [within_session] in Hin. apply negb_true_iff, String.eqb_neq in Hin.
    destruct (handleKeydown_other ev w Hin) as [H|[[a H]|[H|H]]]; rewrite H;
      (split_and!; [reflexivity..|intros Hs; exact Hs]).
  - (* handleOuterMousedown *)
    unfold handleOuterMousedown. destruct (_ && _); destruct w as [h p];
      (split_and!; [reflexivity..|intros Hs; exact Hs]).
Qed.

Lemma run_within_session (ops : list op) (w : world) :
  forallb within_session ops = true →
  lock (run ops w).1 = lock w.1
  ∧ body (run ops w).2 = body w.2
  ∧ (is_Some (Component w.1) → is_Some (Component (run ops w).1)).
Proof.
  revert w. induction ops as [|o ops IH]; intros w Hall.
  - split_and!; [reflexivity..|intros H; exact H].
  - cbn [forallb] in Hall. apply andb_true_iff in Hall as [Ho Hall].
    unfold run. cbn [foldl]. fold (run ops (step o w)).
    destruct (IH (step o w) Hall) as (H1 & H2 & H3).
    destruct (step_within_session o w Ho) as (G1 & G2 & G3).
    rewrite H1, H2, G1, G2. split_and!; [reflexivity..|].
    intros Hs. apply H3, G3, Hs.
Qed.

(** X18. Whatever changes of content, changes of the loading flag,
    presses of the mouse and keys other than Escape come between an
    [openModal] and the [closeModal] after it, that [closeModal] closes
    the session, gives the body the inline position, overflow and width it
    had before the [openModal], empties its top and scrolls the window
    back to the vertical offset it had. *)
Theorem close_after_session_restores (C : component)
    (props o cb cb' : option obj) (ops : list op) (w : world) :
  forallb within_session ops = true →
  let w' := closeModal cb' (run ops (openModal C props o cb w)) in
  Component w'.1 = None
  ∧ style_position (body w'.2) = style_position (body w.2)
  ∧ style_overflow (body w'.2) = style_overflow (body w.2)
  ∧ style_width (body w'.2) = style_width (body w.2)
  ∧ style_top (body w'.2) = ""
  ∧ win_scrollY w'.2 = win_scrollY w.2.
Proof.
  intros Hall. cbn zeta.
  destruct (run_within_session ops (openModal C props o cb w) Hall)
    as (Hlock & _ & Hshown).
  split; [apply closeModal_closes|].
  rewrite closeModal_page
    by (apply Hshown; rewrite openModal_Component; eauto).
  rewrite Hlock, openModal_lock. cbn -[or_empty].
  rewrite !or_empty_Some. split_and!; reflexivity.
Qed.

Lemma close_after_session_restores_witness :
  let ops := [Change ContentY None None; Loading None;
              Keydown (keydown "Tab" false);
              Mousedown (mouse the_background)] in
  forallb within_session ops = true
  ∧ body (closeModal None (run ops (openModal ContentX None None None fresh))).2
    = body sample_page.
Proof.
  cbn zeta. split; [reflexivity|].
  destruct (close_after_session_restores ContentX None None None None
              [Change ContentY None None; Loading None;
               Keydown (keydown "Tab" false);
               Mousedown (mouse the_background)] fresh eq_refl)
    as (_ & H1 & H2 & H3 & H4 & _).
  destruct (body (closeModal None _).2) as [a b c d].
  cbn in H1, H2, H3, H4. subst. reflexivity.
Defined.

(** What one step can do to the variables of the host. *)
Lemma step_frames (o : op) (w : world) :
  defaultState (step o w).1 = defaultState w.1
  ∧ elements (step o w).1 = elements w.1
  ∧ (state (step o w).1 = state w.1
     ∨ ∃ o', state (step o w).1 = spread2 (defaultState w.1) o')
  ∧ (opens o = false → lock (step o w).1 = lock w.1)
  ∧ (sets_loading o = false → loading (step o w).1 = loading w.1)
  ∧ (presses o = false → outerClickTarget (step o w).1 = outerClickTarget w.1).
Proof.
  pose proof (closeModal_frame None w) as (C1 & C2 & C3 & C4 & C5 & C6).
  destruct o; cbn [step opens sets_loading presses].
  - (* openModal *)
    destruct w as [h p]. split_and!; try reflexivity; try discriminate.
    right. eexists. reflexivity.
  - (* changeModalContent *)
    destruct w as [h p]. split_and!; try reflexivity; try discriminate.
    right. eexists. reflexivity.
  - (* closeModal *)
    pose proof (closeModal_frame callback w) as (D1 & D2 & D3 & D4 & D5 & D6).
    split_and!; auto.
  - (* isLoading *)
    destruct w as [h p]. split_and!; try reflexivity; try discriminate. auto.
  - (* handleKeydown *)
    destruct (handleKeydown_cases ev w) as [H|[H|[[a H]|[H|[H _]]]]]; rewrite H;
      cbn [fst snd]; split_and!; auto.
  - (* handleOuterMousedown *)
    unfold handleOuterMousedown. destruct (_ && _); destruct w as [h p];
      split_and!; try reflexivity; try discriminate; auto.
  - (* handleOuterMouseup *)
    unfold handleOuterMouseup. destruct (_ && _); cbn [fst snd];
      split_and!; auto.
  - (* the bound show value *)
    unfold show_changed. destruct v; cbn [isFunction]; try (split_and!; auto; fail).
    destruct w as [h p]. split_and!; try reflexivity; try discriminate.
    right. eexists. reflexivity.
  - (* onDestroy *)
    unfold onDestroy. split_and!; auto.
Qed.

Lemma run_cons (o : op) (ops : list op) (w : world) :
  run (o :: ops) w = run ops (step o w).
Proof. reflexivity. Qed.

(** X19. No call of the control API, no event and no change of [show]
    ever changes the defaults or loses a key of the configuration: after
    any run from a mounted host [defaultState] is what it was and every
    key of the defaults is a key of [state]. *)
Theorem run_keeps_defaults (ops : list op) (defaults : obj) (p : page)
    (k : string) :
  let w := run ops (mounted defaults, p) in
  defaultState w.1 = defaults
  ∧ (is_Some (defaults !! k) → is_Some (state w.1 !! k)).
Proof.
  cbn zeta.
  assert (Hgen : ∀ w : world,
            (is_Some (defaultState w.1 !! k) → is_Some (state w.1 !! k)) →
            defaultState (run ops w).1 = defaultState w.1
            ∧ (is_Some (defaultState w.1 !! k)
               → is_Some (state (run ops w).1 !! k))).
  { induction ops as [|o ops IH]; intros w Hw; [split; [reflexivity|exact Hw]|].
    rewrite run_cons.
    destruct (step_frames o w) as (Hd & _ & Hst & _).
    destruct (IH (step o w)) as [H1 H2].
    - rewrite Hd. intros Hk. destruct Hst as [-> | [o' ->]]; [auto|].
      rewrite spread2_lookup. destruct (o' !! k); [eauto | exact Hk].
    - rewrite H1, Hd. split; [reflexivity|]. intros Hk. apply H2.
      rewrite Hd. exact Hk. }
  apply (Hgen (mounted defaults, p)). cbn. auto.
Qed.

(** X20. The saved scroll snapshot is written only by [openModal] and by
    a change of [show], the loading flag only by [isLoading], the
    remembered click target only by a press of the mouse: a run without
    such a step leaves the variable as it was.  In particular closing
    does not reset the loading flag. *)
Theorem run_frames (ops : list op) (w : world) :
  (forallb (λ o, negb (opens o)) ops = true →
   lock (run ops w).1 = lock w.1)
  ∧ (forallb (λ o, negb (sets_loading o)) ops = true →
     loading (run ops w).1 = loading w.1)
  ∧ (forallb (λ o, negb (presses o)) ops = true →
     outerClickTarget (run ops w).1 = outerClickTarget w.1).
Proof.
  revert w. induction ops as [|o ops IH]; intros w;
    [split_and!; reflexivity|].
  rewrite run_cons. destruct (IH (step o w)) as (I1 & I2 & I3).
  destruct (step_frames o w) as (_ & _ & _ & F1 & F2 & F3).
  cbn [forallb].
  split_and!; intros [Ho Hall]%andb_true_iff; apply negb_true_iff in Ho.
  - rewrite (I1 Hall). apply F1, Ho.
  - rewrite (I2 Hall). apply F2, Ho.
  - rewrite (I3 Hall). apply F3, Ho.
Qed.

Lemma run_frames_witness :
  let w := isLoading None fresh in
  loading (run [Open ContentX None None None; Keydown (keydown "Escape" false);
                Show (VFun ContentY); Destroy] w).1
  = VBool true.
Proof.
  cbn zeta.
  destruct (run_frames [Open ContentX None None None;
                        Keydown (keydown "Escape" false);
                        Show (VFun ContentY); Destroy] (isLoading None fresh))
    as (_ & H & _).
  rewrite (H eq_refl). reflexivity.
Defined.

(** ** Lifecycle handlers *)

Lemma run_hook_notifying (callback : value) (events : list string) :
  (truthy callback = false →
   run_hook (notifying callback events) = Ok (map Dispatch events))
  ∧ (callable callback = true →
     run_hook (notifying callback events)
     = Ok (Call callback :: map Dispatch events))
  ∧ (truthy callback = true → callable callback = false →
     run_hook (notifying callback events) = Throw TypeError).
Proof.
  unfold run_hook, invoke. split_and!.
  - intros ->. reflexivity.
  - intros Hc. destruct callback; try discriminate Hc. reflexivity.
  - intros -> ->. reflexivity.
Qed.

(** X21. After [openModal], a lifecycle handler run with no callback
    given under its name dispatches exactly its events, in this order:
    [open] then [opening], [close] then [closing], [opened], [closed].
    With a function given it calls that function first and then
    dispatches the same events.  With any other truthy value given it
    throws, and nothing is dispatched. *)
Theorem handlers_after_open (C : component) (props o cb : option obj)
    (w : world) :
  let hs := handlers (openModal C props o cb w).1 in
  let runs (h : hook) (name : string) (events : list effect) :=
    let callback := get (spread_opt cb) name in
    (truthy callback = false → run_hook h = Ok events)
    ∧ (callable callback = true → run_hook h = Ok (Call callback :: events))
    ∧ (truthy callback = true → callable callback = false →
       run_hook h = Throw TypeError) in
  runs (onOpen hs) "onOpen" [Dispatch "open"; Dispatch "opening"]
  ∧ runs (onClose hs) "onClose" [Dispatch "close"; Dispatch "closing"]
  ∧ runs (onOpened hs) "onOpened" [Dispatch "opened"]
  ∧ runs (onClosed hs) "onClosed" [Dispatch "closed"].
Proof.
  destruct w as [h p]. cbn zeta. cbn [openModal fst handlers set_handlers
    onOpen onClose onOpened onClosed disableScroll updateStyleTransition].
  split_and!; apply run_hook_notifying.
Qed.

(** X22. [closeModal] given an [onClose] function replaces the handler
    of the exit: running it calls that function and dispatches nothing,
    neither [close] nor [closing], and the [onClose] given to [openModal]
    is not called.  The handlers of the entry are not touched. *)
Theorem close_override_replaces_handler (C : component)
    (props o cb cbo : option obj) (f : nat) (w : world) :
  get (spread_opt cbo) "onClose" = VFun f →
  let opened := openModal C props o cb w in
  let closed := closeModal cbo opened in
  run_hook (onClose (handlers closed.1)) = Ok [Call (VFun f)]
  ∧ onOpen (handlers closed.1) = onOpen (handlers opened.1)
  ∧ onOpened (handlers closed.1) = onOpened (handlers opened.1).
Proof.
  intros Hf. destruct w as [h p]. cbn zeta.
  cbn [openModal closeModal fst snd Component set_handlers set_Component
       handlers disableScroll updateStyleTransition enableScroll set_lock
       set_css set_state onOpen onClose onOpened onClosed].
  rewrite Hf. split_and!; reflexivity.
Qed.

Lemma close_override_replaces_handler_witness :
  let cbo := Some ({["onClose" := VFun 9%nat]} : obj) in
  get (spread_opt cbo) "onClose" = VFun 9%nat
  ∧ run_hook (onClose (handlers
       (closeModal cbo (openModal ContentX None None None fresh)).1))
    = Ok [Call (VFun 9%nat)]
  ∧ run_hook (onClose (handlers
       (closeModal None (openModal ContentX None None None fresh)).1))
    = Ok [Dispatch "close"; Dispatch "closing"].
Proof.
  cbn zeta. split; [reflexivity|]. split; [|reflexivity].
  apply (close_override_replaces_handler ContentX None None None
           (Some {["onClose" := VFun 9%nat]}) 9 fresh).
  reflexivity.
Defined.

(** ** The labels of the dialog *)

Lemma or_null_cases (v : value) :
  or_null v = VNull ∨ (or_null v = v ∧ truthy v = true).
Proof. unfold or_null. destruct (truthy v) eqn:E; auto. Qed.

(** X23. Whatever the configuration, the dialog never gets both labels:
    [aria-label] or [aria-labelledby] is [null]; [ariaLabelledBy], when
    set, is the one that is used; and an attribute that is not [null]
    holds the truthy value of its key. *)
Theorem aria_labels_exclusive (st : obj) :
  (aria_label st = VNull ∨ aria_labelledby st = VNull)
  ∧ (truthy (get st "ariaLabelledBy") = true →
     aria_labelledby st = get st "ariaLabelledBy" ∧ aria_label st = VNull)
  ∧ (aria_label st = VNull
     ∨ aria_label st = get st "ariaLabel" ∧ truthy (get st "ariaLabel") = true)
  ∧ (aria_labelledby st = VNull
     ∨ aria_labelledby st = get st "ariaLabelledBy"
       ∧ truthy (get st "ariaLabelledBy") = true).
Proof.
  unfold aria_label, aria_labelledby.
  destruct (or_null_cases (get st "ariaLabel")) as [Ha | [Ha Hta]];
    destruct (or_null_cases (get st "ariaLabelledBy")) as [Hb | [Hb Htb]];
    rewrite ?Ha, ?Hb; destruct (truthy (get st "ariaLabelledBy")) eqn:E;
    split_and!; auto; try discriminate;
    try (intros _; unfold or_null in *; rewrite E in *; auto).
Qed.

Lemma aria_labels_exclusive_witness :
  let st : obj := {["ariaLabelledBy" := VStr "title"; "ariaLabel" := VStr "Help"]} in
  truthy (get st "ariaLabelledBy") = true
  ∧ aria_labelledby st = VStr "title"
  ∧ aria_label st = VNull.
Proof.
  cbn zeta. split; [reflexivity|].
  destruct (aria_labels_exclusive
              {["ariaLabelledBy" := VStr "title"; "ariaLabel" := VStr "Help"]})
    as (_ & H & _).
  destruct (H eq_refl) as [H1 H2]. split; [rewrite H1; reflexivity | exact H2].
Defined.

Lemma handlers_after_open_witness :
  let cb := Some ({["onOpen" := VFun 8%nat; "onClosed" := VStr "late"]} : obj) in
  let hs := handlers (openModal ContentX None None cb fresh).1 in
  run_hook (onOpen hs)
  = Ok [Call (VFun 8%nat); Dispatch "open"; Dispatch "opening"]
  ∧ run_hook (onClose hs) = Ok [Dispatch "close"; Dispatch "closing"]
  ∧ run_hook (onClosed hs) = Throw TypeError.
Proof.
  cbn zeta.
  destruct (handlers_after_open ContentX None None
              (Some {["onOpen" := VFun 8%nat; "onClosed" := VStr "late"]})
              fresh) as ((_ & H1 & _) & (H2 & _) & _ & (_ & _ & H4)).
  split_and!.
  - apply H1. reflexivity.
  - apply H2. reflexivity.
  - apply H4; reflexivity.
Defined.

Lemma open_close_rounds_restore_witness :
  2%nat ≠ 0%nat
  ∧ body (open_close_rounds 2 ContentX fresh).2 = body sample_page
  ∧ Component (open_close_rounds 2 ContentX fresh).1 = None.
Proof.
  split; [discriminate|].
  destruct (open_close_rounds_restore 2 ContentX fresh)
    as (H1 & H2 & H3 & _ & H5).
  destruct (H5 ltac:(discriminate)) as [Hc Htop].
  split; [|exact Hc].
  destruct (body (open_close_rounds 2 ContentX fresh).2) as [a b c d].
  cbn in H1, H2, H3, Htop. subst. reflexivity.
Defined.

Lemma run_keeps_defaults_witness :
  let ops := [Open ContentX None (Some {["closeOnEsc" := VBool false]}) None;
              Keydown (keydown "Escape" false); Close None;
              Change ContentY None None] in
  is_Some (documented_defaults !! "unstyled")
  ∧ defaultState (run ops fresh).1 = documented_defaults
  ∧ is_Some (state (run ops fresh).1 !! "unstyled").
Proof.
  cbn zeta.
  assert (Hk : is_Some (documented_defaults !! "unstyled"))
    by (vm_compute; eexists; reflexivity).
  split; [exact Hk|].
  destruct (run_keeps_defaults
              [Open ContentX None (Some {["closeOnEsc" := VBool false]}) None;
               Keydown (keydown "Escape" false); Close None;
               Change ContentY None None]
              documented_defaults sample_page "unstyled") as [H1 H2].
  split; [exact H1 | exact (H2 Hk)].
Defined.

(** ** The styles of the regions *)

Lemma step_styles (o : op) (w : world) :
  (state (step o w).1 = state w.1 ∧ css (step o w).1 = css w.1)
  ∨ styles_current (step o w).1.
Proof.
  pose proof (closeModal_frame None w) as (_ & C2 & _).
  assert (Hclose : ∀ cb, css (closeModal cb w).1 = css w.1).
  { intros cb. destruct w as [h p]. cbn. destruct (Component h); reflexivity. }
  assert (Hstate : ∀ cb, state (closeModal cb w).1 = state w.1).
  { intros cb. apply closeModal_frame. }
  destruct o; cbn [step].
  - right. destruct w as [h p]. unfold styles_current. split_and!; reflexivity.
  - right. destruct w as [h p]. unfold styles_current. split_and!; reflexivity.
  - left. auto.
  - left. destruct w as [h p]. split; reflexivity.
  - left. destruct (handleKeydown_cases ev w) as [H|[H|[[a H]|[H|[H _]]]]];
      rewrite H; cbn [fst snd]; auto.
  - left. unfold handleOuterMousedown. destruct (_ && _); destruct w as [h p];
      split; reflexivity.
  - left. unfold handleOuterMouseup. destruct (_ && _); cbn [fst snd]; auto.
  - unfold show_changed. destruct v; cbn [isFunction]; try (left; auto; fail).
    right. destruct w as [h p]. unfold styles_current. split_and!; reflexivity.
  - left. unfold onDestroy. auto.
Qed.

(** X24. After any run from a mounted host, either the styles have
    never been computed, or the style strings of the wrapper, the window,
    the content and the close button and the two transitions are the ones
    of the current configuration: they are never left over from an
    earlier configuration. *)
Theorem styles_follow_state (ops : list op) (defaults : obj) (p : page) :
  let w := run ops (mounted defaults, p) in
  css w.1 = Styling None None None None None VUndef VUndef
  ∨ styles_current w.1.
Proof.
  cbn zeta.
  assert (Hgen : ∀ w : world,
            css w.1 = Styling None None None None None VUndef VUndef
            ∨ styles_current w.1 →
            css (run ops w).1 = Styling None None None None None VUndef VUndef
            ∨ styles_current (run ops w).1).
  { induction ops as [|o ops IH]; intros w Hw; [exact Hw|].
    rewrite run_cons. apply IH.
    destruct (step_styles o w) as [[Hs Hc] | Hcur]; [|right; exact Hcur].
    destruct Hw as [Hinit | Hcur]; [left; rewrite Hc; exact Hinit|].
    right. unfold styles_current in *. rewrite Hs, Hc. exact Hcur. }
  apply Hgen. left. reflexivity.
Qed.

Lemma handleKeydown_throws_iff_witness :
  let w := showing [Element the_content (-1)]
             (openModal ContentX None
                        (Some {["closeButton" := VBool false]}) None fresh) in
  tabbable_of (dialog_nodes w.2) = []
  ∧ handleKeydown (keydown "Tab" false) w = Throw TypeError
  ∧ ∀ e, handleKeydown (keydown "Tab" false) scenario_E ≠ Throw e.
Proof.
  cbn zeta. split; [reflexivity|]. split.
  - apply (handleKeydown_throws_iff (keydown "Tab" false)).
    split_and!; [vm_compute; eexists; reflexivity | reflexivity
                 | vm_compute; reflexivity | right; reflexivity].
  - intros e He.
    apply (handleKeydown_throws_iff (keydown "Tab" false) scenario_E) in He
      as (_ & _ & _ & [Hm | Hl]); [discriminate Hm | discriminate Hl].
Defined.
